(** * Fruito API: a shallow embedding of [main.py] and [schemas.py]

    The handlers of [main.py] are embedded as computations in a state
    and exception monad over the MongoDB database the module-level name
    [db] is bound to ([None] when the database is not available).

    - Python [str] is [string], read as the UTF-8 bytes of the text, so
      that [s.encode()] is [list_byte_of_string s]; Python [int] is [Z];
      Python [float] is the kernel's binary64 [float].
    - A collection is the list of its documents in insertion order.  The
      documents are records with one field per key the handlers read or
      write; a key read through [.get] is an [option], [None] when the
      document lacks it.
    - [hmac], [hashlib] and [bson.ObjectId] are libraries the program
      calls; they are embedded from their published algorithms and
      contracts (FIPS 180-4, RFC 2104, the 24 hexadecimal digit form of
      an object id).
    - The server is reached by every call.  Of the driver and the
      server, the failures embedded are those the requests of the
      handlers can cause: an increment or a result of [$inc] outside
      the eight bytes of a BSON integer. *)

From Stdlib Require Import ZArith NArith List Bool Ascii String Strings.Byte Lia.
From Stdlib Require Import Floats.PrimFloat Floats.SpecFloat Floats.FloatOps.
From stdpp Require Import base option list strings gmap.

Local Open Scope string_scope.
Local Open Scope list_scope.

(** ** Bytes *)

Definition bytes : Type := list byte.

Definition byte_of_N (n : N) : byte :=
  match Byte.of_N (n mod 256)%N with
  | Some b => b
  | None => "000"%byte
  end.

Definition byte_xor (c : N) (b : byte) : byte :=
  byte_of_N (N.lxor (Byte.to_N b) c).

(** ** SHA-256 ([hashlib.sha256], FIPS 180-4) *)

Module SHA256.

Definition mask32 : N := 0xffffffff%N.
Definition add32 (a b : N) : N := N.land (a + b) mask32.
Definition not32 (a : N) : N := N.lxor a mask32.
Definition rotr (n x : N) : N :=
  N.lor (N.shiftr x n) (N.land (N.shiftl x (32 - n)) mask32).
Definition shr (n x : N) : N := N.shiftr x n.

Definition Ch (x y z : N) : N := N.lxor (N.land x y) (N.land (not32 x) z).
Definition Maj (x y z : N) : N :=
  N.lxor (N.lxor (N.land x y) (N.land x z)) (N.land y z).
Definition Sigma0 (x : N) : N := N.lxor (N.lxor (rotr 2 x) (rotr 13 x)) (rotr 22 x).
Definition Sigma1 (x : N) : N := N.lxor (N.lxor (rotr 6 x) (rotr 11 x)) (rotr 25 x).
Definition sigma0 (x : N) : N := N.lxor (N.lxor (rotr 7 x) (rotr 18 x)) (shr 3 x).
Definition sigma1 (x : N) : N := N.lxor (N.lxor (rotr 17 x) (rotr 19 x)) (shr 10 x).

(** The constants of FIPS 180-4: the first 32 bits of the fractional
    parts of the square roots ([H0]) and of the cube roots ([K]) of the
    first primes. *)
Definition is_prime (n : N) : bool :=
  forallb (fun d => negb (n mod (N.of_nat d) =? 0)%N) (seq 2 (N.to_nat n - 2)).

Definition primes (count : nat) : list N :=
  firstn count (List.filter is_prime (map N.of_nat (seq 2 310))).

(** The integer cube root, one bit at a time from bit [k] down. *)
Fixpoint cbrt_bits (k : nat) (r n : N) : N :=
  match k with
  | O => r
  | S k' =>
      let r' := (r + 2 ^ N.of_nat k')%N in
      if (r' * r' * r' <=? n)%N then cbrt_bits k' r' n else cbrt_bits k' r n
  end.

Definition H0 : list N :=
  Eval vm_compute in
    map (fun p => N.land (N.sqrt (N.shiftl p 64)) mask32) (primes 8).

Definition K : list N :=
  Eval vm_compute in
    map (fun p => N.land (cbrt_bits 36 0 (N.shiftl p 96)) mask32) (primes 64).

(** Big-endian encodings. *)
Definition be32 (w : N) : bytes :=
  [ byte_of_N (N.shiftr w 24); byte_of_N (N.shiftr w 16);
    byte_of_N (N.shiftr w 8); byte_of_N w ].
Definition be64 (w : N) : bytes :=
  be32 (N.land (N.shiftr w 32) mask32) ++ be32 (N.land w mask32).

Fixpoint words (bs : bytes) : list N :=
  match bs with
  | a :: b :: c :: d :: rest =>
      (N.shiftl (Byte.to_N a) 24 + N.shiftl (Byte.to_N b) 16
       + N.shiftl (Byte.to_N c) 8 + Byte.to_N d)%N :: words rest
  | _ => []
  end.

(** The message followed by the bit 1, zeros up to 56 modulo 64 and
    the bit length on eight bytes. *)
Definition pad (msg : bytes) : bytes :=
  let l := N.of_nat (length msg) in
  msg ++ "128"%byte
      :: repeat "000"%byte (N.to_nat ((119 - l mod 64) mod 64))
      ++ be64 (8 * l).

(** The message schedule, most recent word first. *)
Fixpoint schedule (n : nat) (w : list N) : list N :=
  match n with
  | O => w
  | S n' =>
      schedule n'
        (add32 (add32 (sigma1 (nth 1 w 0%N)) (nth 6 w 0%N))
               (add32 (sigma0 (nth 14 w 0%N)) (nth 15 w 0%N)) :: w)
  end.

Record regs := Regs { ra : N; rb : N; rc : N; rd : N; re : N; rf : N; rg : N; rh : N }.

Definition round (s : regs) (kw : N * N) : regs :=
  let t1 := add32 (add32 (add32 (rh s) (Sigma1 (re s))) (Ch (re s) (rf s) (rg s)))
                  (add32 (fst kw) (snd kw)) in
  let t2 := add32 (Sigma0 (ra s)) (Maj (ra s) (rb s) (rc s)) in
  Regs (add32 t1 t2) (ra s) (rb s) (rc s) (add32 (rd s) t1) (re s) (rf s) (rg s).

Definition compress (h : regs) (block : list N) : regs :=
  let w := rev (schedule 48 (rev block)) in
  let s := fold_left round (combine K w) h in
  Regs (add32 (ra h) (ra s)) (add32 (rb h) (rb s)) (add32 (rc h) (rc s))
       (add32 (rd h) (rd s)) (add32 (re h) (re s)) (add32 (rf h) (rf s))
       (add32 (rg h) (rg s)) (add32 (rh h) (rh s)).

Fixpoint blocks (n : nat) (h : regs) (ws : list N) : regs :=
  match n with
  | O => h
  | S n' =>
      match ws with
      | [] => h
      | _ => blocks n' (compress h (firstn 16 ws)) (skipn 16 ws)
      end
  end.

Definition init : regs :=
  Regs (nth 0 H0 0%N) (nth 1 H0 0%N) (nth 2 H0 0%N) (nth 3 H0 0%N)
       (nth 4 H0 0%N) (nth 5 H0 0%N) (nth 6 H0 0%N) (nth 7 H0 0%N).

Definition digest (msg : bytes) : bytes :=
  let ws := words (pad msg) in
  let h := blocks (length ws) init ws in
  be32 (ra h) ++ be32 (rb h) ++ be32 (rc h) ++ be32 (rd h)
    ++ be32 (re h) ++ be32 (rf h) ++ be32 (rg h) ++ be32 (rh h).

End SHA256.

(** ** HMAC ([hmac.new(key, msg, hashlib.sha256)], RFC 2104) *)

Definition hmac_sha256 (key msg : bytes) : bytes :=
  let k0 := if (64 <? length key)%nat then SHA256.digest key else key in
  let k := k0 ++ repeat "000"%byte (64 - length k0) in
  SHA256.digest (map (byte_xor 0x5c) k ++ SHA256.digest (map (byte_xor 0x36) k ++ msg)).

(** [bytes.hex()]: two lowercase hexadecimal digits per byte. *)
Definition hex_digit (n : N) : ascii :=
  if (n <? 10)%N then ascii_of_N (48 + n) else ascii_of_N (87 + n).

Fixpoint hex (bs : bytes) : string :=
  match bs with
  | [] => EmptyString
  | b :: rest =>
      String (hex_digit (Byte.to_N b / 16)) (String (hex_digit (Byte.to_N b mod 16)) (hex rest))
  end.

Definition hexdigest (key msg : bytes) : string := hex (hmac_sha256 key msg).


(** ** Results of a call

    A Python call returns a value or raises.  [HTTPException] is the
    exception FastAPI turns into an error response with that status
    code and detail; any other exception escapes the handler. *)

Inductive exn : Type :=
| InvalidId (oid : string)
| TypeError (msg : string)
| OverflowError (msg : string)
| WriteError (msg : string).

Inductive result (A : Type) : Type :=
| Return (a : A)
| HTTPException (status_code : Z) (detail : string)
| Uncaught (e : exn).

Arguments Return {A} a.
Arguments HTTPException {A} status_code detail.
Arguments Uncaught {A} e.

Definition is_Return {A} (r : result A) : bool :=
  match r with Return _ => true | _ => false end.

(** ** [bson.ObjectId] *)

Definition oid : Type := bytes.

#[global] Instance byte_eq_dec : EqDecision byte := Byte.byte_eq_dec.

Definition hex_value (c : ascii) : option N :=
  let n := N_of_ascii c in
  if (48 <=? n)%N && (n <=? 57)%N then Some (n - 48)%N
  else if (97 <=? n)%N && (n <=? 102)%N then Some (n - 87)%N
  else if (65 <=? n)%N && (n <=? 70)%N then Some (n - 55)%N
  else None.

(** ASCII whitespace: space, tab, line feed, vertical tab, form feed and
    carriage return. *)
Definition is_space (c : ascii) : bool :=
  let n := N_of_ascii c in
  (n =? 32)%N || ((9 <=? n)%N && (n <=? 13)%N).

(** [bytes.fromhex]: two hexadecimal digits per byte, in either case;
    ASCII whitespace before a byte is skipped; anything else is an
    error. *)
Fixpoint fromhex (s : string) : option bytes :=
  match s with
  | EmptyString => Some []
  | String a rest =>
      if is_space a then fromhex rest
      else
        match rest with
        | EmptyString => None
        | String b rest' =>
            match hex_value a, hex_value b, fromhex rest' with
            | Some h, Some l, Some bs => Some (byte_of_N (16 * h + l) :: bs)
            | _, _, _ => None
            end
        end
  end.

(** [ObjectId(s)]: a string of length 24 is read with [bytes.fromhex],
    twelve bytes when it holds 24 hexadecimal digits and fewer when it
    holds whitespace; a string of another length, or one [bytes.fromhex]
    refuses, raises [InvalidId]. *)
Definition ObjectId (s : string) : result oid :=
  if (String.length s =? 24)%nat then
    match fromhex s with
    | Some b => Return b
    | None => Uncaught (InvalidId s)
    end
  else Uncaught (InvalidId s).

(** [str(oid)] *)
Definition str_oid (o : oid) : string := hex o.

(** The driver gives every inserted document a new [_id]; the generator
    is a counter kept with the database. *)
Definition oid_of_N (n : N) : oid :=
  SHA256.be32 (N.land (N.shiftr n 64) SHA256.mask32) ++ SHA256.be64 n.

(** ** Python numbers *)

Definition float_of_Z (z : Z) : float :=
  SF2Prim (binary_normalize 53 1024 z 0 false).

(** The conversion of an [int] operand in [float * int]. *)
Definition float_of_int (z : Z) : result float :=
  let f := float_of_Z z in
  if PrimFloat.is_infinity f
  then Uncaught (OverflowError "int too large to convert to float")
  else Return f.

(** ** Documents and collections *)

Record UserDoc : Type := {
  user__id : oid;
  user_name : option string;
  user_email : option string;
  user_password_hash : option string;
  user_role : option string;
  user_created_at : option Z;
  user_updated_at : option Z
}.

Record ProductDoc : Type := {
  product__id : oid;
  product_name : option string;
  product_description : option string;
  product_price : option float;
  product_image : option string;
  product_stock : option Z
}.

(** The values of a dumped model. *)
Inductive value : Type :=
| VStr (s : string)
| VInt (n : Z)
| VFloat (f : float)
| VNone.

Record OrderDoc : Type := {
  order__id : oid;
  order_user_id : string;
  order_items : list (gmap string value);
  order_total : float;
  order_status : string
}.

Record Database : Type := {
  coll_user : list UserDoc;
  coll_product : list ProductDoc;
  coll_order : list OrderDoc;
  next_oid : N
}.

(** What [$set] and [$inc] do to a document.  [$inc] on an absent field
    sets it to the increment; [product_inc_stock] applies it when the
    increment and the result fit eight bytes. *)
Definition set_role (r : string) (u : UserDoc) : UserDoc :=
  {| user__id := user__id u; user_name := user_name u; user_email := user_email u;
     user_password_hash := user_password_hash u; user_role := Some r;
     user_created_at := user_created_at u; user_updated_at := user_updated_at u |}.

Definition set_password_hash (h : string) (u : UserDoc) : UserDoc :=
  {| user__id := user__id u; user_name := user_name u; user_email := user_email u;
     user_password_hash := Some h; user_role := user_role u;
     user_created_at := user_created_at u; user_updated_at := user_updated_at u |}.

Definition inc_stock (delta : Z) (p : ProductDoc) : ProductDoc :=
  {| product__id := product__id p; product_name := product_name p;
     product_description := product_description p; product_price := product_price p;
     product_image := product_image p;
     product_stock := Some (default 0 (product_stock p) + delta)%Z |}.

(** [find_one] returns the first document that matches, [update_one]
    changes the first document that matches, [update_many] all of them. *)
Definition find_one {D} (q : D -> bool) (c : list D) : option D := List.find q c.

Fixpoint update_one {D} (q : D -> bool) (upd : D -> D) (c : list D) : list D :=
  match c with
  | [] => []
  | d :: c' => if q d then upd d :: c' else d :: update_one q upd c'
  end.

Definition update_many {D} (q : D -> bool) (upd : D -> D) (c : list D) : list D :=
  map (fun d => if q d then upd d else d) c.

(** Filters. *)
Definition email_is (e : string) (u : UserDoc) : bool :=
  bool_decide (user_email u = Some e).
Definition role_is (r : string) (u : UserDoc) : bool :=
  bool_decide (user_role u = Some r).
Definition id_is (o : oid) (p : ProductDoc) : bool :=
  bool_decide (product__id p = o).

(** ** The handler monad: the state is what [db] is bound to *)

Definition M (A : Type) : Type := option Database -> result A * option Database.

Definition ret {A} (a : A) : M A := fun s => (Return a, s).

Definition bind {A B} (m : M A) (k : A -> M B) : M B :=
  fun s =>
    match m s with
    | (Return a, s') => k a s'
    | (HTTPException c d, s') => (HTTPException c d, s')
    | (Uncaught e, s') => (Uncaught e, s')
    end.

Definition raise {A} (status_code : Z) (detail : string) : M A :=
  fun s => (HTTPException status_code detail, s).

Definition lift {A} (r : result A) : M A := fun s => (r, s).

Notation "x <- c ;; k" := (bind c (fun x => k))
  (at level 100, c at next level, right associativity).
Notation "c ;;; k" := (bind c (fun _ => k))
  (at level 100, k at level 200, right associativity).

Definition get_db : M (option Database) := fun s => (Return s, s).

(** [db[...]] on [None] raises. *)
Definition with_db {A} (f : Database -> A * Database) : M A :=
  fun s =>
    match s with
    | None => (Uncaught (TypeError "'NoneType' object is not subscriptable"), None)
    | Some d => let (a, d') := f d in (Return a, Some d')
    end.

Definition set_user (c : list UserDoc) (d : Database) : Database :=
  {| coll_user := c; coll_product := coll_product d; coll_order := coll_order d;
     next_oid := next_oid d |}.
Definition set_product (c : list ProductDoc) (d : Database) : Database :=
  {| coll_user := coll_user d; coll_product := c; coll_order := coll_order d;
     next_oid := next_oid d |}.
Definition set_order (c : list OrderDoc) (d : Database) : Database :=
  {| coll_user := coll_user d; coll_product := coll_product d; coll_order := c;
     next_oid := next_oid d |}.
Definition bump_oid (d : Database) : Database :=
  {| coll_user := coll_user d; coll_product := coll_product d; coll_order := coll_order d;
     next_oid := N.succ (next_oid d) |}.

Definition user_find_one (q : UserDoc -> bool) : M (option UserDoc) :=
  with_db (fun d => (find_one q (coll_user d), d)).
Definition user_update_one (q : UserDoc -> bool) (upd : UserDoc -> UserDoc) : M unit :=
  with_db (fun d => (tt, set_user (update_one q upd (coll_user d)) d)).
Definition user_update_many (q : UserDoc -> bool) (upd : UserDoc -> UserDoc) : M unit :=
  with_db (fun d => (tt, set_user (update_many q upd (coll_user d)) d)).
Definition user_insert_one (doc : oid -> UserDoc) : M oid :=
  with_db (fun d =>
    let i := oid_of_N (next_oid d) in
    (i, bump_oid (set_user (coll_user d ++ [doc i]) d))).

Definition product_find_one (q : ProductDoc -> bool) : M (option ProductDoc) :=
  with_db (fun d => (find_one q (coll_product d), d)).

(** BSON integers have at most eight bytes. *)
Definition int64 (z : Z) : bool := (- 2 ^ 63 <=? z)%Z && (z <? 2 ^ 63)%Z.

(** [db["product"].update_one({"_id": i}, {"$inc": {"stock": delta}})].
    The driver raises [OverflowError] for an increment that does not fit
    eight bytes, before anything is sent; the server refuses an increment
    that takes the stored integer out of that range; otherwise the first
    document that matches, if there is one, is incremented. *)
Definition product_inc_stock (i : oid) (delta : Z) : M unit :=
  fun s =>
    match s with
    | None => (Uncaught (TypeError "'NoneType' object is not subscriptable"), None)
    | Some d =>
        if negb (int64 delta)
        then (Uncaught (OverflowError "MongoDB can only handle up to 8-byte ints"), Some d)
        else
          match find_one (id_is i) (coll_product d) with
          | Some p =>
              if negb (int64 (default 0 (product_stock p) + delta)%Z)
              then (Uncaught (WriteError "Failed to apply $inc operations to current value"),
                    Some d)
              else (Return tt,
                    Some (set_product (update_one (id_is i) (inc_stock delta) (coll_product d)) d))
          | None =>
              (Return tt,
               Some (set_product (update_one (id_is i) (inc_stock delta) (coll_product d)) d))
          end
    end.
Definition product_insert_one (doc : oid -> ProductDoc) : M oid :=
  with_db (fun d =>
    let i := oid_of_N (next_oid d) in
    (i, bump_oid (set_product (coll_product d ++ [doc i]) d))).

Definition order_insert_one (doc : oid -> OrderDoc) : M oid :=
  with_db (fun d =>
    let i := oid_of_N (next_oid d) in
    (i, bump_oid (set_order (coll_order d ++ [doc i]) d))).

(** Modelled from the spec: [create_document] of the repository's
    [database] module, whose source is not at hand.  The persistence
    accessor inserts the document into the named collection and returns
    the identifier the database assigned to it, as a string.  The
    collection is named by its [insert_one]. *)
Definition create_document {D} (insert_one : (oid -> D) -> M oid) (data : oid -> D) : M string :=
  i <- insert_one data ;; ret (str_oid i).

(** ** Request and response models of [main.py] *)

Module SignupRequest.
Record t : Type := { name : string; email : string; password : string }.
End SignupRequest.

Module LoginRequest.
Record t : Type := { email : string; password : string }.
End LoginRequest.

(** The dictionary the authentication handlers return; [email] holds
    what [user.get("email")] gave. *)
Module UserPublic.
Record t : Type := { id : string; name : string; email : option string; role : string }.
End UserPublic.

Module ProductIn.
Record t : Type := {
  name : string;
  description : option string;
  price : float;
  image : option string;
  stock : Z
}.
(** [model_dump()], awaiting the [_id] of the insertion. *)
Definition model_dump (p : t) (i : oid) : ProductDoc :=
  {| product__id := i; product_name := Some (name p);
     product_description := description p; product_price := Some (price p);
     product_image := image p; product_stock := Some (stock p) |}.
End ProductIn.

Module ProductOut.
Record t : Type := { id : string; product : ProductIn.t }.
End ProductOut.

Module OrderItemIn.
Record t : Type := { product_id : string; quantity : Z }.
Definition model_dump (i : t) : gmap string value :=
  {[ "product_id" := VStr (product_id i); "quantity" := VInt (quantity i) ]}.
End OrderItemIn.

Module OrderOut.
Record t : Type := {
  id : string;
  user_id : string;
  total : float;
  status : string;
  created_at : option string
}.
End OrderOut.

Module AdminCreateProductRequest.
Record t : Type := { product : ProductIn.t; credentials : LoginRequest.t }.
End AdminCreateProductRequest.

Module OrderCreate.
Record t : Type := { user_id : string; items : list OrderItemIn.t }.
End OrderCreate.

(** A dictionary of the list [list_products] returns. *)
Module ProductView.
Record t : Type := {
  id : string;
  name : option string;
  description : option string;
  price : float;
  image : option string;
  stock : Z
}.
End ProductView.

(** ** The program *)

Definition is_ascii (s : string) : bool :=
  forallb (fun c => (N_of_ascii c <? 128)%N) (list_ascii_of_string s).

(** [hmac.compare_digest] on two [str]: equality, and [TypeError] when
    either holds a character outside ASCII. *)
Definition compare_digest (a b : string) : result bool :=
  if is_ascii a && is_ascii b then Return (String.eqb a b)
  else Uncaught (TypeError "comparing strings with non-ASCII characters is not supported").

Definition ADMIN_EMAIL : string := "deeptesh2006@gmail.com".
Definition ADMIN_PASSWORD : string := "deep1591".

(** [f"{x}"] of [prod.get('name')] *)
Definition format_name (n : option string) : string :=
  match n with Some s => s | None => "None" end.

Section Fruito.

(** The value of the environment variable [SECRET_KEY], when it is set. *)
Variable SECRET_KEY_env : option string.

Definition SECRET_KEY : string := default "super-secret-key" SECRET_KEY_env.

Definition hash_password (password : string) : string :=
  hexdigest (list_byte_of_string SECRET_KEY) (list_byte_of_string password).

Definition verify_password (password password_hash : string) : result bool :=
  compare_digest (hash_password password) password_hash.

Definition other_admin (u : UserDoc) : bool :=
  negb (email_is ADMIN_EMAIL u) && role_is "admin" u.

(** [seed_admin]; [t_created] and [t_updated] are the two readings of
    the clock. *)
Definition seed_admin (t_created t_updated : Z) : M unit :=
  db <- get_db ;;
  match db with
  | None => ret tt
  | Some _ =>
      existing <- user_find_one (email_is ADMIN_EMAIL) ;;
      match existing with
      | Some _ =>
          user_update_many other_admin (set_role "user") ;;;
          user_update_one (email_is ADMIN_EMAIL)
            (fun u => set_password_hash (hash_password ADMIN_PASSWORD) (set_role "admin" u))
      | None =>
          user_insert_one (fun i =>
            {| user__id := i; user_name := Some "Admin"; user_email := Some ADMIN_EMAIL;
               user_password_hash := Some (hash_password ADMIN_PASSWORD);
               user_role := Some "admin";
               user_created_at := Some t_created; user_updated_at := Some t_updated |}) ;;;
          user_update_many other_admin (set_role "user")
      end
  end.

Definition user_signup (payload : SignupRequest.t) : M UserPublic.t :=
  db <- get_db ;;
  match db with
  | None => raise 500 "Database not available"
  | Some _ =>
      if bool_decide (SignupRequest.email payload = ADMIN_EMAIL)
      then raise 400 "This email is reserved for admin"
      else
        found <- user_find_one (email_is (SignupRequest.email payload)) ;;
        match found with
        | Some _ => raise 400 "Email already registered"
        | None =>
            uid <- create_document user_insert_one (fun i =>
              {| user__id := i; user_name := Some (SignupRequest.name payload);
                 user_email := Some (SignupRequest.email payload);
                 user_password_hash := Some (hash_password (SignupRequest.password payload));
                 user_role := Some "user";
                 user_created_at := None; user_updated_at := None |}) ;;
            ret {| UserPublic.id := uid; UserPublic.name := SignupRequest.name payload;
                   UserPublic.email := Some (SignupRequest.email payload);
                   UserPublic.role := "user" |}
        end
  end.

Definition user_login (payload : LoginRequest.t) : M UserPublic.t :=
  db <- get_db ;;
  match db with
  | None => raise 500 "Database not available"
  | Some _ =>
      found <- user_find_one (email_is (LoginRequest.email payload)) ;;
      match found with
      | None => raise 401 "Invalid credentials"
      | Some user =>
          ok <- lift (verify_password (LoginRequest.password payload)
                        (default "" (user_password_hash user))) ;;
          if negb ok then raise 401 "Invalid credentials"
          else if negb (bool_decide (user_role user = Some "user"))
          then raise 403 "Not a user account"
          else ret {| UserPublic.id := str_oid (user__id user);
                      UserPublic.name := default "" (user_name user);
                      UserPublic.email := user_email user;
                      UserPublic.role := "user" |}
      end
  end.

Definition admin_login (payload : LoginRequest.t) : M UserPublic.t :=
  db <- get_db ;;
  match db with
  | None => raise 500 "Database not available"
  | Some _ =>
      found <- user_find_one (email_is (LoginRequest.email payload)) ;;
      match found with
      | None => raise 401 "Invalid credentials"
      | Some user =>
          ok <- lift (verify_password (LoginRequest.password payload)
                        (default "" (user_password_hash user))) ;;
          if negb ok then raise 401 "Invalid credentials"
          else if negb (bool_decide (LoginRequest.email payload = ADMIN_EMAIL))
                  || negb (bool_decide (user_role user = Some "admin"))
          then raise 403 "Admin access denied"
          else ret {| UserPublic.id := str_oid (user__id user);
                      UserPublic.name := default "Admin" (user_name user);
                      UserPublic.email := user_email user;
                      UserPublic.role := "admin" |}
      end
  end.

Definition create_product (req : AdminCreateProductRequest.t) : M ProductOut.t :=
  db <- get_db ;;
  match db with
  | None => raise 500 "Database not available"
  | Some _ =>
      let creds := AdminCreateProductRequest.credentials req in
      admin <- user_find_one (email_is (LoginRequest.email creds)) ;;
      denied <-
        match admin with
        | None => ret true
        | Some admin =>
            ok <- lift (verify_password (LoginRequest.password creds)
                          (default "" (user_password_hash admin))) ;;
            ret (negb ok
                 || negb (bool_decide (LoginRequest.email creds = ADMIN_EMAIL))
                 || negb (bool_decide (user_role admin = Some "admin")))
        end ;;
      if (denied : bool) then raise 403 "Admin access denied"
      else
        pid <- create_document product_insert_one
                 (ProductIn.model_dump (AdminCreateProductRequest.product req)) ;;
        ret {| ProductOut.id := pid;
               ProductOut.product := AdminCreateProductRequest.product req |}
  end.

(** The first loop of [place_order]: the stock check, with the running
    total. *)
Fixpoint check_stock (items : list OrderItemIn.t) (total : float) : M float :=
  match items with
  | [] => ret total
  | item :: items' =>
      i <- lift (ObjectId (OrderItemIn.product_id item)) ;;
      found <- product_find_one (id_is i) ;;
      match found with
      | None => raise 404 "Product not found"
      | Some prod =>
          if (default 0 (product_stock prod) <? OrderItemIn.quantity item)%Z
          then raise 400 ("Insufficient stock for " ++ format_name (product_name prod))
          else
            q <- lift (float_of_int (OrderItemIn.quantity item)) ;;
            check_stock items'
              (PrimFloat.add total (PrimFloat.mul (default 0%float (product_price prod)) q))
      end
  end.

(** The second loop: one [$inc] per item; it stops at the first one that
    raises, with the earlier ones applied. *)
Fixpoint reduce_stock (items : list OrderItemIn.t) : M unit :=
  match items with
  | [] => ret tt
  | item :: items' =>
      i <- lift (ObjectId (OrderItemIn.product_id item)) ;;
      product_inc_stock i (- OrderItemIn.quantity item) ;;;
      reduce_stock items'
  end.

Definition place_order (order : OrderCreate.t) : M OrderOut.t :=
  db <- get_db ;;
  match db with
  | None => raise 500 "Database not available"
  | Some _ =>
      total <- check_stock (OrderCreate.items order) 0%float ;;
      reduce_stock (OrderCreate.items order) ;;;
      oid <- create_document order_insert_one (fun i =>
        {| order__id := i; order_user_id := OrderCreate.user_id order;
           order_items := map OrderItemIn.model_dump (OrderCreate.items order);
           order_total := total; order_status := "placed" |}) ;;
      ret {| OrderOut.id := oid; OrderOut.user_id := OrderCreate.user_id order;
             OrderOut.total := total; OrderOut.status := "placed";
             OrderOut.created_at := None |}
  end.

(** Modelled from the spec: [get_documents] of the repository's
    [database] module, whose source is not at hand.  The persistence
    accessor returns the documents of the named collection, here named
    by its projection. *)
Definition get_documents {D} (coll : Database -> list D) : M (list D) :=
  with_db (fun d => (coll d, d)).

Definition list_products : M (list ProductView.t) :=
  db <- get_db ;;
  match db with
  | None => raise 500 "Database not available"
  | Some _ =>
      items <- get_documents coll_product ;;
      ret (map (fun it =>
                 {| ProductView.id := str_oid (product__id it);
                    ProductView.name := product_name it;
                    ProductView.description := product_description it;
                    ProductView.price := default 0%float (product_price it);
                    ProductView.image := product_image it;
                    ProductView.stock := default 0%Z (product_stock it) |}) items)
  end.

(** ** Sessions: the calls a server receives, in order *)

Inductive call : Type :=
| Startup (t_created t_updated : Z)
| Signup (payload : SignupRequest.t)
| UserLogin (payload : LoginRequest.t)
| AdminLogin (payload : LoginRequest.t)
| CreateProduct (req : AdminCreateProductRequest.t)
| ListProducts
| PlaceOrder (order : OrderCreate.t).

(** The state a call leaves. *)
Definition run (c : call) (s : option Database) : option Database :=
  match c with
  | Startup t1 t2 => (seed_admin t1 t2 s).2
  | Signup payload => (user_signup payload s).2
  | UserLogin payload => (user_login payload s).2
  | AdminLogin payload => (admin_login payload s).2
  | CreateProduct req => (create_product req s).2
  | ListProducts => (list_products s).2
  | PlaceOrder order => (place_order order s).2
  end.

Definition session (calls : list call) (s : option Database) : option Database :=
  fold_left (fun s c => run c s) calls s.

(** ** Derived notions used to state the properties *)

(** The product a request's [product_id] denotes, if any: the document
    [find_one({"_id": ObjectId(product_id)})] returns. *)
Definition lookup_product (d : Database) (product_id : string) : option ProductDoc :=
  match ObjectId product_id with
  | Return i => find_one (id_is i) (coll_product d)
  | _ => None
  end.

(** [int(prod.get("stock", 0))] *)
Definition stock_of (p : ProductDoc) : Z := default 0%Z (product_stock p).

(** The collection after the [$inc] of one item that the driver and the
    server accept; folded over the items, the collection after a second
    loop that returns. *)
Definition decrement (c : list ProductDoc) (item : OrderItemIn.t) : list ProductDoc :=
  match ObjectId (OrderItemIn.product_id item) with
  | Return i => update_one (id_is i) (inc_stock (- OrderItemIn.quantity item)) c
  | _ => c
  end.

(** The order document [place_order] inserts and the dictionary it returns. *)
Definition placed_order (order : OrderCreate.t) (total : float) (i : oid) : OrderDoc :=
  {| order__id := i; order_user_id := OrderCreate.user_id order;
     order_items := map OrderItemIn.model_dump (OrderCreate.items order);
     order_total := total; order_status := "placed" |}.

Definition order_out (order : OrderCreate.t) (total : float) (i : oid) : OrderOut.t :=
  {| OrderOut.id := str_oid i; OrderOut.user_id := OrderCreate.user_id order;
     OrderOut.total := total; OrderOut.status := "placed"; OrderOut.created_at := None |}.

(** The item's product is missing, or its stock is less than the
    requested quantity. *)
Definition missing_or_short (d : Database) (item : OrderItemIn.t) : bool :=
  match lookup_product d (OrderItemIn.product_id item) with
  | None => true
  | Some p => (stock_of p <? OrderItemIn.quantity item)%Z
  end.





(** The stock after a request with pairwise distinct product ids that
    passes the stock check, as the specification words it: every
    referenced product ends with its fetched stock minus the item's
    quantity, which is not negative. *)
Definition stock_after_check (d : Database) (order : OrderCreate.t) : Prop :=
  NoDup (map OrderItemIn.product_id (OrderCreate.items order)) ->
  is_Return (check_stock (OrderCreate.items order) 0%float (Some d)).1 = true ->
  exists d',
    (place_order order (Some d)).2 = Some d' /\
    Forall (fun item =>
              exists p p',
                lookup_product d (OrderItemIn.product_id item) = Some p /\
                lookup_product d' (OrderItemIn.product_id item) = Some p' /\
                product_stock p' = Some (stock_of p - OrderItemIn.quantity item)%Z /\
                (0 <= stock_of p - OrderItemIn.quantity item)%Z)
           (OrderCreate.items order).

(** The document [user_signup] inserts. *)
Definition signup_doc (payload : SignupRequest.t) (i : oid) : UserDoc :=
  {| user__id := i; user_name := Some (SignupRequest.name payload);
     user_email := Some (SignupRequest.email payload);
     user_password_hash := Some (hash_password (SignupRequest.password payload));
     user_role := Some "user";
     user_created_at := None; user_updated_at := None |}.

(** The records with role admin are exactly one record, the one with
    the reserved email, and it holds the hash of the admin password. *)
Definition only_admin_is_reserved (c : list UserDoc) : Prop :=
  exists u,
    List.filter (role_is "admin") c = [u] /\
    find_one (email_is ADMIN_EMAIL) c = Some u /\
    user_email u = Some ADMIN_EMAIL /\
    user_password_hash u = Some (hash_password ADMIN_PASSWORD).

(** Startup seeding from the user collection of [d], once and twice in
    sequence, as the specification words its outcome. *)
Definition seeding_outcome (d : Database) : Prop :=
  forall t1 t2 t3 t4 : Z,
  exists d1 d2,
    seed_admin t1 t2 (Some d) = (Return tt, Some d1) /\
    only_admin_is_reserved (coll_user d1) /\
    seed_admin t3 t4 (Some d1) = (Return tt, Some d2) /\
    only_admin_is_reserved (coll_user d2).

(** At most one record carries the reserved email. *)
Definition at_most_one_reserved (c : list UserDoc) : Prop :=
  (length (List.filter (email_is ADMIN_EMAIL) c) <= 1)%nat.

(** The state startup seeding establishes and signups keep: looking up
    the reserved email finds a record with role admin and the hash of
    the admin password. *)
Definition seeded (d : Database) : Prop :=
  exists u,
    find_one (email_is ADMIN_EMAIL) (coll_user d) = Some u /\
    user_role u = Some "admin" /\
    user_password_hash u = Some (hash_password ADMIN_PASSWORD).

(** An account whose stored hash was written by [hash_password], as
    signup and seeding write it. *)
Definition registered (u : UserDoc) : Prop :=
  exists password, user_password_hash u = Some (hash_password password).

(** The user collection is [l1 ++ u :: l2] where [u] is the reserved
    record, an admin with the hash of the admin password, and no record of
    [l1] or [l2] is an admin or carries the reserved email. *)
Definition single_admin (c : list UserDoc) (u : UserDoc) : Prop :=
  exists l1 l2,
    c = l1 ++ u :: l2 /\
    Forall (fun x => email_is ADMIN_EMAIL x = false /\ role_is "admin" x = false) (l1 ++ l2) /\
    user_email u = Some ADMIN_EMAIL /\
    user_role u = Some "admin" /\
    user_password_hash u = Some (hash_password ADMIN_PASSWORD).

(** What every session keeps of the user collection: no two records
    share an email, every stored hash was written by [hash_password],
    and a record with role admin carries the reserved email. *)
Definition emails (c : list UserDoc) : list string := omap user_email c.

Definition users_invariant (c : list UserDoc) : Prop :=
  NoDup (emails c) /\
  Forall registered c /\
  Forall (fun u => role_is "admin" u = true -> email_is ADMIN_EMAIL u = true) c.

(** The stock of a whole collection. *)
Definition total_stock (c : list ProductDoc) : Z :=
  fold_right (fun p acc => (stock_of p + acc)%Z) 0%Z c.

Definition total_quantity (items : list OrderItemIn.t) : Z :=
  fold_right (fun item acc => (OrderItemIn.quantity item + acc)%Z) 0%Z items.

(** The dictionary [list_products] builds for a document. *)
Definition product_view (it : ProductDoc) : ProductView.t :=
  {| ProductView.id := str_oid (product__id it);
     ProductView.name := product_name it;
     ProductView.description := product_description it;
     ProductView.price := default 0%float (product_price it);
     ProductView.image := product_image it;
     ProductView.stock := default 0%Z (product_stock it) |}.

Definition is_lower_hex (c : ascii) : bool :=
  let n := N_of_ascii c in
  ((48 <=? n)%N && (n <=? 57)%N) || ((97 <=? n)%N && (n <=? 102)%N).

(** The item's id denotes a product of the collection. *)
Definition found_in (c : list ProductDoc) (item : OrderItemIn.t) : Prop :=
  match ObjectId (OrderItemIn.product_id item) with
  | Return i => is_Some (find_one (id_is i) c)
  | _ => False
  end.

(** Startup seeding has nothing left to do: the reserved record is an
    admin with the hash of the admin password and no other record is an
    admin. *)
Definition settled (d : Database) : Prop :=
  seeded d /\ Forall (fun x => other_admin x = false) (coll_user d).

(** What seeding may change of a record: nothing but the role of
    another admin, which becomes user, and the role and the hash of a
    record with the reserved email, which become admin and the hash of
    the admin password. *)
Definition kept (u u' : UserDoc) : Prop :=
  user__id u' = user__id u /\ user_name u' = user_name u /\
  user_email u' = user_email u /\
  user_created_at u' = user_created_at u /\ user_updated_at u' = user_updated_at u /\
  (email_is ADMIN_EMAIL u = false ->
   user_password_hash u' = user_password_hash u /\
   user_role u' = if role_is "admin" u then Some "user" else user_role u) /\
  (email_is ADMIN_EMAIL u = true ->
   u' = u \/
   (user_role u' = Some "admin" /\
    user_password_hash u' = Some (hash_password ADMIN_PASSWORD))).

(** ** Sample data *)

Definition empty_db : Database :=
  {| coll_user := []; coll_product := []; coll_order := []; next_oid := 0 |}.

Definition pear_id : string := "0000000000000000000000ab".

Definition pear (stock : Z) : ProductDoc :=
  {| product__id := oid_of_N 0xab; product_name := Some "Pear";
     product_description := None; product_price := Some 2.5%float;
     product_image := None; product_stock := Some stock |}.

(** A shop whose only product is the pear, with the given stock. *)
Definition shop (stock : Z) : Database :=
  {| coll_user := []; coll_product := [pear stock]; coll_order := []; next_oid := 0xac |}.

Definition order_of (items : list (string * Z)) : OrderCreate.t :=
  {| OrderCreate.user_id := "u1";
     OrderCreate.items :=
       map (fun x => {| OrderItemIn.product_id := x.1; OrderItemIn.quantity := x.2 |}) items |}.

Definition fig_id : string := "0000000000000000000000AF".

Definition fig (stock : Z) : ProductDoc :=
  {| product__id := oid_of_N 0xaf; product_name := Some "Fig";
     product_description := Some "Dried"; product_price := Some 0.75%float;
     product_image := None; product_stock := Some stock |}.

Definition market : Database :=
  {| coll_user := []; coll_product := [pear 10; fig 4]; coll_order := []; next_oid := 0xb0 |}.

(** A user collection where another account holds the admin role and the
    reserved record has lost it. *)
Definition tampered : Database :=
  {| coll_user :=
       [ {| user__id := oid_of_N 1; user_name := Some "Mallory";
            user_email := Some "mallory@example.com";
            user_password_hash := Some "00"; user_role := Some "admin";
            user_created_at := None; user_updated_at := None |};
         {| user__id := oid_of_N 2; user_name := Some "Admin"; user_email := Some ADMIN_EMAIL;
            user_password_hash := Some "11"; user_role := Some "user";
            user_created_at := None; user_updated_at := None |} ];
     coll_product := []; coll_order := []; next_oid := 3 |}.

(** Two records with the reserved email, both admins. *)
Definition reserved_twice : Database :=
  {| coll_user :=
       [ {| user__id := oid_of_N 1; user_name := Some "Admin"; user_email := Some ADMIN_EMAIL;
            user_password_hash := Some "00"; user_role := Some "admin";
            user_created_at := None; user_updated_at := None |};
         {| user__id := oid_of_N 2; user_name := Some "Admin"; user_email := Some ADMIN_EMAIL;
            user_password_hash := Some "11"; user_role := Some "admin";
            user_created_at := None; user_updated_at := None |} ];
     coll_product := []; coll_order := []; next_oid := 3 |}.

(** The state [m] leaves when run on [d]. *)
Definition state_after {A} (m : M A) (d : Database) : Database :=
  default d (m (Some d)).2.

(** The empty database after startup seeding. *)
Definition fresh_db : Database := state_after (seed_admin 0 0) empty_db.

Definition alice : SignupRequest.t :=
  {| SignupRequest.name := "Alice"; SignupRequest.email := "alice@example.com";
     SignupRequest.password := "correct horse" |}.

Definition bob : SignupRequest.t :=
  {| SignupRequest.name := "Bob"; SignupRequest.email := "bob@example.com";
     SignupRequest.password := "correct horse" |}.

Definition admin_credentials : LoginRequest.t :=
  {| LoginRequest.email := ADMIN_EMAIL; LoginRequest.password := ADMIN_PASSWORD |}.

(** A product with a negative price and a negative stock. *)
Definition owed_pear : ProductIn.t :=
  {| ProductIn.name := "Pear"; ProductIn.description := None;
     ProductIn.price := (-1)%float; ProductIn.image := None; ProductIn.stock := (-5)%Z |}.

(** The admin puts four figs on sale. *)
Definition sell_figs : AdminCreateProductRequest.t :=
  {| AdminCreateProductRequest.product :=
       {| ProductIn.name := "Fig"; ProductIn.description := Some "Dried";
          ProductIn.price := 0.75%float; ProductIn.image := None; ProductIn.stock := 4%Z |};
     AdminCreateProductRequest.credentials := admin_credentials |}.

(** * Properties *)

Arguments hash_password : simpl never.
Arguments verify_password : simpl never.
Arguments compare_digest : simpl never.
Arguments ObjectId : simpl never.
Arguments float_of_int : simpl never.
Arguments str_oid : simpl never.
Arguments oid_of_N : simpl never.
Arguments PrimFloat.add : simpl never.
Arguments PrimFloat.mul : simpl never.

Ltac unfold_monad :=
  unfold bind, ret, raise, lift, get_db, create_document,
    user_find_one, user_update_one, user_update_many, user_insert_one,
    product_find_one, product_inc_stock, product_insert_one, order_insert_one,
    with_db in *.

(** ** The collection operations *)

Lemma find_one_Some {D} (q : D -> bool) (c : list D) (x : D) :
  find_one q c = Some x -> In x c /\ q x = true.
Proof. apply find_some. Qed.

Lemma find_one_update_one_same {D} (q : D -> bool) (upd : D -> D) (c : list D) :
  (forall x, q x = true -> q (upd x) = true) ->
  find_one q (update_one q upd c) = upd <$> find_one q c.
Proof.
  intros Hq. induction c as [|x c IH]; simpl; [reflexivity|].
  destruct (q x) eqn:E; simpl.
  - rewrite (Hq x E). reflexivity.
  - rewrite E. exact IH.
Qed.

Lemma find_one_update_one_other {D} (q q' : D -> bool) (upd : D -> D) (c : list D) :
  (forall x, q' (upd x) = q' x) ->
  (forall x, q x = true -> q' x = false) ->
  find_one q' (update_one q upd c) = find_one q' c.
Proof.
  intros Hupd Hdisj. induction c as [|x c IH]; simpl; [reflexivity|].
  destruct (q x) eqn:E; simpl.
  - rewrite Hupd, (Hdisj x E). reflexivity.
  - destruct (q' x); [reflexivity | exact IH].
Qed.

Lemma id_is_inc_stock (i : oid) (delta : Z) (p : ProductDoc) :
  id_is i (inc_stock delta p) = id_is i p.
Proof. reflexivity. Qed.

Lemma id_is_distinct (i j : oid) (p : ProductDoc) :
  i <> j -> id_is i p = true -> id_is j p = false.
Proof.
  unfold id_is. intros Hij Hi. apply bool_decide_eq_true in Hi.
  apply bool_decide_eq_false. congruence.
Qed.

(** ** The two loops of [place_order] *)

Lemma check_stock_state (items : list OrderItemIn.t) (total : float) (s : option Database) :
  (check_stock items total s).2 = s.
Proof.
  revert total. induction items as [|item items IH]; intros total; simpl; [reflexivity|].
  unfold_monad.
  destruct (ObjectId (OrderItemIn.product_id item)); simpl; try reflexivity.
  destruct s as [d|]; simpl; [|reflexivity].
  destruct (find_one (id_is a) (coll_product d)) as [prod|]; simpl; [|reflexivity].
  destruct (default 0 (product_stock prod) <? OrderItemIn.quantity item)%Z; simpl; [reflexivity|].
  destruct (float_of_int (OrderItemIn.quantity item)); simpl; try reflexivity.
  apply IH.
Qed.

Lemma check_stock_ids (items : list OrderItemIn.t) (total total' : float) (s s' : option Database) :
  check_stock items total s = (Return total', s') ->
  Forall (fun item => is_Return (ObjectId (OrderItemIn.product_id item)) = true) items.
Proof.
  revert total. induction items as [|item items IH]; intros total; simpl; [constructor|].
  unfold_monad.
  destruct (ObjectId (OrderItemIn.product_id item)) eqn:Ei; simpl; try discriminate.
  destruct s as [d|]; simpl; [|discriminate].
  destruct (find_one (id_is a) (coll_product d)) as [prod|]; simpl; [|discriminate].
  destruct (default 0 (product_stock prod) <? OrderItemIn.quantity item)%Z; simpl; [discriminate|].
  destruct (float_of_int (OrderItemIn.quantity item)); simpl; try discriminate.
  intros H. constructor; [rewrite Ei; reflexivity | eapply IH; exact H].
Qed.

Lemma set_product_same (d : Database) : set_product (coll_product d) d = d.
Proof. destruct d; reflexivity. Qed.

(** The second loop writes to the products only. *)
Lemma reduce_stock_products (items : list OrderItemIn.t) (d : Database) :
  exists r c', reduce_stock items (Some d) = (r, Some (set_product c' d)).
Proof.
  revert d. induction items as [|item items IH]; intros d; cbn [reduce_stock].
  - exists (Return tt), (coll_product d). unfold ret. rewrite set_product_same. reflexivity.
  - unfold bind at 1. unfold lift.
    destruct (ObjectId (OrderItemIn.product_id item)) as [i| |];
      [| eexists _, (coll_product d); rewrite set_product_same; reflexivity..].
    unfold bind at 1. unfold product_inc_stock.
    destruct (negb (int64 (- OrderItemIn.quantity item)));
      [eexists _, (coll_product d); rewrite set_product_same; reflexivity|].
    assert (Hgo : exists r c',
               reduce_stock items
                 (Some (set_product
                          (update_one (id_is i) (inc_stock (- OrderItemIn.quantity item))
                             (coll_product d)) d))
               = (r, Some (set_product c' d))).
    { destruct (IH (set_product
                      (update_one (id_is i) (inc_stock (- OrderItemIn.quantity item))
                         (coll_product d)) d)) as (r & c' & Hr).
      exists r, c'. exact Hr. }
    destruct (find_one (id_is i) (coll_product d)) as [p|]; [|exact Hgo].
    destruct (negb (int64 (default 0 (product_stock p) + - OrderItemIn.quantity item)%Z));
      [eexists _, (coll_product d); rewrite set_product_same; reflexivity | exact Hgo].
Qed.

(** A second loop that returns has applied every [$inc]. *)
Lemma reduce_stock_Return (items : list OrderItemIn.t) (d : Database) (u : unit)
    (s' : option Database) :
  reduce_stock items (Some d) = (Return u, s') ->
  s' = Some (set_product (fold_left decrement items (coll_product d)) d).
Proof.
  revert d. induction items as [|item items IH]; intros d; cbn [reduce_stock fold_left].
  - unfold ret. intros [= _ <-]. rewrite set_product_same. reflexivity.
  - unfold bind at 1. unfold lift. unfold decrement at 2.
    destruct (ObjectId (OrderItemIn.product_id item)) as [i| |]; [|discriminate..].
    unfold bind at 1. unfold product_inc_stock.
    destruct (negb (int64 (- OrderItemIn.quantity item))); [discriminate|].
    assert (Hgo : reduce_stock items
                    (Some (set_product
                             (update_one (id_is i) (inc_stock (- OrderItemIn.quantity item))
                                (coll_product d)) d))
                  = (Return u, s') ->
                  s' = Some (set_product
                               (fold_left decrement items
                                  (update_one (id_is i) (inc_stock (- OrderItemIn.quantity item))
                                     (coll_product d))) d)).
    { intros H. exact (IH _ H). }
    destruct (find_one (id_is i) (coll_product d)) as [p|]; [|exact Hgo].
    destruct (negb (int64 (default 0 (product_stock p) + - OrderItemIn.quantity item)%Z));
      [discriminate | exact Hgo].
Qed.

Lemma int64_bounds (z : Z) : (- 2 ^ 63 <= z < 2 ^ 63)%Z -> int64 z = true.
Proof.
  intros [Hlo Hhi]. unfold int64. apply andb_true_iff.
  split; [apply Z.leb_le | apply Z.ltb_lt]; assumption.
Qed.

(** The second loop on one item whose increment and result fit. *)
Lemma reduce_stock_one (d : Database) (item : OrderItemIn.t) (i : oid) (p : ProductDoc) :
  ObjectId (OrderItemIn.product_id item) = Return i ->
  find_one (id_is i) (coll_product d) = Some p ->
  int64 (- OrderItemIn.quantity item) = true ->
  int64 (stock_of p - OrderItemIn.quantity item) = true ->
  reduce_stock [item] (Some d)
  = (Return tt,
     Some (set_product
             (update_one (id_is i) (inc_stock (- OrderItemIn.quantity item)) (coll_product d))
             d)).
Proof.
  intros Hid Hfind Hdelta Hnew. cbn [reduce_stock]. unfold bind, lift, ret.
  rewrite Hid. unfold product_inc_stock. rewrite Hdelta, Hfind. cbn [negb].
  unfold stock_of, Z.sub in Hnew. rewrite Hnew. reflexivity.
Qed.

(** What [place_order] does once the two loops are known. *)
Lemma place_order_after_check (order : OrderCreate.t) (d : Database) :
  place_order order (Some d) =
  match check_stock (OrderCreate.items order) 0%float (Some d) with
  | (Return total, _) =>
      match reduce_stock (OrderCreate.items order) (Some d) with
      | (Return _, _) =>
          (Return (order_out order total (oid_of_N (next_oid d))),
           Some (bump_oid (set_order (coll_order d ++ [placed_order order total (oid_of_N (next_oid d))])
                             (set_product (fold_left decrement (OrderCreate.items order) (coll_product d)) d))))
      | (HTTPException c msg, s1) => (HTTPException c msg, s1)
      | (Uncaught e, s1) => (Uncaught e, s1)
      end
  | (HTTPException c msg, _) => (HTTPException c msg, Some d)
  | (Uncaught e, _) => (Uncaught e, Some d)
  end.
Proof.
  unfold place_order. unfold bind at 1. unfold get_db at 1. unfold bind at 1.
  pose proof (check_stock_state (OrderCreate.items order) 0%float (Some d)) as Hs.
  destruct (check_stock (OrderCreate.items order) 0%float (Some d)) as [[total|c msg|e] s'] eqn:E;
    simpl in Hs; subst s'; try reflexivity.
  unfold bind at 1.
  destruct (reduce_stock (OrderCreate.items order) (Some d)) as [[u|c msg|e] s1] eqn:Er;
    try reflexivity.
  apply reduce_stock_Return in Er. subst s1. reflexivity.
Qed.

(** An order is returned only after both loops returned. *)
Lemma place_order_Return (order : OrderCreate.t) (d : Database) (out : OrderOut.t)
    (s' : option Database) :
  place_order order (Some d) = (Return out, s') ->
  exists total,
    check_stock (OrderCreate.items order) 0%float (Some d) = (Return total, Some d) /\
    out = order_out order total (oid_of_N (next_oid d)) /\
    s' = Some (bump_oid (set_order (coll_order d ++ [placed_order order total (oid_of_N (next_oid d))])
                           (set_product (fold_left decrement (OrderCreate.items order) (coll_product d)) d))).
Proof.
  rewrite place_order_after_check.
  pose proof (check_stock_state (OrderCreate.items order) 0%float (Some d)) as Hs.
  destruct (check_stock (OrderCreate.items order) 0%float (Some d)) as [[total|c msg|e] s0];
    [|discriminate..].
  simpl in Hs. subst s0.
  destruct (reduce_stock (OrderCreate.items order) (Some d)) as [[u|c msg|e] s1];
    [|discriminate..].
  intros [= <- <-]. exists total. repeat split.
Qed.

Lemma check_stock_pass (d : Database) (item : OrderItemIn.t) (items : list OrderItemIn.t)
    (total : float) :
  missing_or_short d item = false ->
  exists p, lookup_product d (OrderItemIn.product_id item) = Some p /\
    (OrderItemIn.quantity item <= stock_of p)%Z /\
    check_stock (item :: items) total (Some d) =
    match float_of_int (OrderItemIn.quantity item) with
    | Return q =>
        check_stock items
          (PrimFloat.add total (PrimFloat.mul (default 0%float (product_price p)) q)) (Some d)
    | HTTPException c msg => (HTTPException c msg, Some d)
    | Uncaught e => (Uncaught e, Some d)
    end.
Proof.
  unfold missing_or_short, lookup_product. intros H.
  destruct (ObjectId (OrderItemIn.product_id item)) as [i| |] eqn:Ei; try discriminate.
  destruct (find_one (id_is i) (coll_product d)) as [p|] eqn:Ef; [|discriminate].
  exists p. split; [reflexivity|]. apply Z.ltb_ge in H. split; [exact H|].
  simpl. unfold_monad. rewrite Ei. simpl. rewrite Ef. simpl.
  apply Z.ltb_ge in H. unfold stock_of in H. rewrite H.
  destruct (float_of_int (OrderItemIn.quantity item)); reflexivity.
Qed.

Lemma check_stock_fail (d : Database) (item : OrderItemIn.t) (items : list OrderItemIn.t)
    (total : float) :
  is_Return (ObjectId (OrderItemIn.product_id item)) = true ->
  missing_or_short d item = true ->
  check_stock (item :: items) total (Some d) =
  (match lookup_product d (OrderItemIn.product_id item) with
   | None => HTTPException 404 "Product not found"
   | Some p => HTTPException 400 ("Insufficient stock for " ++ format_name (product_name p))
   end, Some d).
Proof.
  unfold missing_or_short, lookup_product. intros Hid H.
  destruct (ObjectId (OrderItemIn.product_id item)) as [i| |] eqn:Ei; try discriminate.
  simpl. unfold_monad. rewrite Ei. simpl.
  destruct (find_one (id_is i) (coll_product d)) as [p|] eqn:Ef; [|reflexivity].
  unfold stock_of in H. rewrite H. reflexivity.
Qed.

(** A first loop that returns has found every product with enough stock. *)
Lemma check_stock_Return (d : Database) (items : list OrderItemIn.t) (total total' : float)
    (s' : option Database) :
  check_stock items total (Some d) = (Return total', s') ->
  Forall (fun item => missing_or_short d item = false) items.
Proof.
  revert total. induction items as [|item items IH]; intros total H; [constructor|].
  destruct (missing_or_short d item) eqn:Em.
  - pose proof (check_stock_ids _ _ _ _ _ H) as Hids. inversion Hids as [|? ? Hid _]; subst.
    rewrite (check_stock_fail d item items total Hid Em) in H.
    destruct (lookup_product d (OrderItemIn.product_id item)); discriminate.
  - constructor; [exact Em|].
    destruct (check_stock_pass d item items total Em) as (p & _ & _ & Heq).
    rewrite Heq in H. destruct (float_of_int (OrderItemIn.quantity item)); try discriminate.
    eapply IH. exact H.
Qed.


Lemma first_missing_or_short (d : Database) (items : list OrderItemIn.t) :
  Exists (fun item => missing_or_short d item = true) items ->
  exists pre item post,
    items = pre ++ item :: post /\
    Forall (fun x => missing_or_short d x = false) pre /\
    missing_or_short d item = true.
Proof.
  induction items as [|x items IH]; intros H; [inversion H|].
  destruct (missing_or_short d x) eqn:Ex.
  - exists [], x, items. repeat split; [constructor | exact Ex].
  - inversion H as [? ? Hx|? ? Hrest]; subst; [congruence|].
    destruct (IH Hrest) as (pre & item & post & -> & Hpre & Hitem).
    exists (x :: pre), item, post. repeat split; [constructor; assumption | exact Hitem].
Qed.

Lemma decrement_other (items : list OrderItemIn.t) (c : list ProductDoc) (i : oid) :
  Forall (fun x => ObjectId (OrderItemIn.product_id x) <> Return i) items ->
  find_one (id_is i) (fold_left decrement items c) = find_one (id_is i) c.
Proof.
  intros H. revert c. induction H as [|x items Hx _ IH]; intros c; simpl; [reflexivity|].
  rewrite IH. unfold decrement.
  destruct (ObjectId (OrderItemIn.product_id x)) as [j| |] eqn:Ej; try reflexivity.
  apply find_one_update_one_other.
  - intros p. apply id_is_inc_stock.
  - intros p. apply id_is_distinct. congruence.
Qed.

Lemma decrement_distinct (items : list OrderItemIn.t) (c : list ProductDoc) :
  NoDup (map (fun x => ObjectId (OrderItemIn.product_id x)) items) ->
  Forall (fun item =>
    forall i, ObjectId (OrderItemIn.product_id item) = Return i ->
      find_one (id_is i) (fold_left decrement items c)
      = inc_stock (- OrderItemIn.quantity item) <$> find_one (id_is i) c) items.
Proof.
  revert c. induction items as [|x items IH]; intros c Hnd; [constructor|].
  simpl in Hnd. apply NoDup_cons in Hnd as [Hx Hnd]. constructor.
  - intros i Hi. simpl. rewrite decrement_other.
    + unfold decrement. rewrite Hi. apply find_one_update_one_same.
      intros p Hp. rewrite id_is_inc_stock. exact Hp.
    + apply Forall_forall. intros y Hy Heq. apply Hx. rewrite Hi, <- Heq.
      apply list_elem_of_fmap. exists y. split; [reflexivity | exact Hy].
  - simpl. specialize (IH (decrement c x) Hnd).
    rewrite Forall_forall in IH |- *. intros y Hy i Hi. rewrite (IH y Hy i Hi). f_equal.
    unfold decrement. destruct (ObjectId (OrderItemIn.product_id x)) as [j| |] eqn:Ej; try reflexivity.
    apply find_one_update_one_other.
    + intros p. apply id_is_inc_stock.
    + intros p. apply id_is_distinct. intros ->. apply Hx. try rewrite Ej. rewrite <- Hi.
      apply list_elem_of_fmap. exists y. split; [reflexivity | exact Hy].
Qed.

(** The second loop returns when the items denote pairwise distinct
    products that are found, and every increment and every resulting
    stock fits in eight bytes. *)
Lemma reduce_stock_distinct (items : list OrderItemIn.t) (d : Database) :
  NoDup (map (fun x => ObjectId (OrderItemIn.product_id x)) items) ->
  Forall (fun item =>
            exists i p,
              ObjectId (OrderItemIn.product_id item) = Return i /\
              find_one (id_is i) (coll_product d) = Some p /\
              int64 (- OrderItemIn.quantity item) = true /\
              int64 (stock_of p - OrderItemIn.quantity item) = true) items ->
  exists s', reduce_stock items (Some d) = (Return tt, s').
Proof.
  revert d. induction items as [|x items IH]; intros d Hnd Hall.
  - eexists. cbn [reduce_stock]. unfold ret. reflexivity.
  - simpl in Hnd. apply NoDup_cons in Hnd as [Hx Hnd].
    inversion Hall as [|? ? (i & p & Hi & Hp & Hdelta & Hnew) Hrest]; subst.
    cbn [reduce_stock]. unfold bind at 1. unfold lift. rewrite Hi.
    unfold bind at 1. unfold product_inc_stock. rewrite Hdelta, Hp. cbn [negb].
    unfold stock_of, Z.sub in Hnew. rewrite Hnew. cbn [negb].
    apply IH; [exact Hnd|].
    rewrite Forall_forall in Hrest |- *. intros y Hy.
    destruct (Hrest y Hy) as (j & pj & Hj & Hpj & Hdj & Hnj).
    exists j, pj. split; [exact Hj|]. split; [|split; assumption].
    cbn [coll_product set_product]. rewrite <- Hpj.
    apply find_one_update_one_other.
    + intros q. apply id_is_inc_stock.
    + intros q. apply id_is_distinct. intros Hij. apply Hx. rewrite Hi, Hij, <- Hj.
      apply list_elem_of_fmap. exists y. split; [reflexivity | exact Hy].
Qed.

(** ** Order placement *)


(** C2.  An order of quantity 3 for a product with price 2.50 and stock
    10 returns the new order's id, the user id, total 7.50 and status
    placed; afterwards the product's stock is 7 and the order collection
    ends with the order record, total 7.50 and status placed. *)
Theorem place_order_three_of_ten (d : Database) (user_id pid : string) (i : oid) (p : ProductDoc) :
  ObjectId pid = Return i ->
  find_one (id_is i) (coll_product d) = Some p ->
  product_price p = Some 2.5%float ->
  product_stock p = Some 10%Z ->
  let item := {| OrderItemIn.product_id := pid; OrderItemIn.quantity := 3 |} in
  let order := {| OrderCreate.user_id := user_id; OrderCreate.items := [item] |} in
  let new := oid_of_N (next_oid d) in
  exists d' p',
    place_order order (Some d)
    = (Return {| OrderOut.id := str_oid new; OrderOut.user_id := user_id;
                 OrderOut.total := 7.5%float; OrderOut.status := "placed";
                 OrderOut.created_at := None |}, Some d') /\
    coll_product d' = update_one (id_is i) (inc_stock (-3)) (coll_product d) /\
    find_one (id_is i) (coll_product d') = Some p' /\
    product_stock p' = Some 7%Z /\
    coll_order d'
    = coll_order d ++ [ {| order__id := new; order_user_id := user_id;
                           order_items := [OrderItemIn.model_dump item];
                           order_total := 7.5%float; order_status := "placed" |} ].
Proof.
  intros Hid Hfind Hprice Hstock item order new.
  assert (Hcheck : check_stock [item] 0%float (Some d) = (Return 7.5%float, Some d)).
  { simpl. unfold_monad. simpl. rewrite Hid. simpl. rewrite Hfind. simpl.
    rewrite Hstock, Hprice. reflexivity. }
  assert (Hred : reduce_stock [item] (Some d)
                 = (Return tt,
                    Some (set_product (update_one (id_is i) (inc_stock (-3)) (coll_product d)) d))).
  { apply (reduce_stock_one d item i p Hid Hfind); [reflexivity|].
    unfold stock_of. rewrite Hstock. reflexivity. }
  eexists _, (inc_stock (-3) p). rewrite place_order_after_check. simpl OrderCreate.items.
  rewrite Hcheck, Hred. split; [reflexivity|]. simpl. unfold decrement. simpl. rewrite Hid.
  split; [reflexivity|]. split.
  - rewrite find_one_update_one_same, Hfind; [reflexivity|].
    intros x Hx. rewrite id_is_inc_stock. exact Hx.
  - split; [|reflexivity]. simpl. rewrite Hstock. reflexivity.
Qed.

(** C7.  The order record of every successfully placed order holds one
    stored item per requested item, in order, and each stored item has
    exactly the keys product_id and quantity, with the values of the
    request: the name and price snapshots of the OrderItem schema are not
    written. *)
Theorem place_order_stored_items (d : Database) (order : OrderCreate.t) (out : OrderOut.t)
    (s' : option Database) :
  place_order order (Some d) = (Return out, s') ->
  exists d' o,
    s' = Some d' /\
    coll_order d' = coll_order d ++ [o] /\
    str_oid (order__id o) = OrderOut.id out /\
    Forall2 (fun (stored : gmap string value) item =>
               dom stored = ({[ "product_id"; "quantity" ]} : gset string) /\
               stored !! "product_id" = Some (VStr (OrderItemIn.product_id item)) /\
               stored !! "quantity" = Some (VInt (OrderItemIn.quantity item)) /\
               stored !! "name" = None /\
               stored !! "price" = None)
            (order_items o) (OrderCreate.items order).
Proof.
  intros Hrun. apply place_order_Return in Hrun as (total & _ & -> & ->).
  eexists _, _. split; [reflexivity|]. split; [reflexivity|].
  split; [reflexivity|]. simpl.
  induction (OrderCreate.items order) as [|item items IH]; simpl; constructor; [|exact IH].
  unfold OrderItemIn.model_dump.
  split; [rewrite dom_insert_L, dom_singleton_L; reflexivity|].
  split; [apply lookup_insert_eq|].
  split; [rewrite lookup_insert_ne by discriminate; apply lookup_singleton_eq|].
  split; rewrite lookup_insert_ne by discriminate; apply lookup_singleton_ne; discriminate.
Qed.

(** C9, as amended.  When the items of a request denote pairwise
    distinct products (the object ids its product ids denote are pairwise
    distinct) and the handler returns the order, every referenced product
    ends with its fetched stock minus the item's quantity, which is not
    negative.  Distinctness is needed: in a shop with 5 pears, one
    request listing the pear twice with quantity 3 passes the check and
    leaves the stock at -1.  And the handler does return the order when
    the request passes the stock check and every increment and every
    resulting stock fits in the eight bytes of the driver's integers. *)
Theorem place_order_distinct_products :
  (forall (d : Database) (order : OrderCreate.t) (out : OrderOut.t) (s' : option Database),
      NoDup (map (fun x => ObjectId (OrderItemIn.product_id x)) (OrderCreate.items order)) ->
      place_order order (Some d) = (Return out, s') ->
      exists d',
        s' = Some d' /\
        Forall (fun item =>
                  exists i p p',
                    ObjectId (OrderItemIn.product_id item) = Return i /\
                    find_one (id_is i) (coll_product d) = Some p /\
                    find_one (id_is i) (coll_product d') = Some p' /\
                    product_stock p' = Some (stock_of p - OrderItemIn.quantity item)%Z /\
                    (0 <= stock_of p - OrderItemIn.quantity item)%Z)
               (OrderCreate.items order))
  /\ (exists total out d',
        check_stock (OrderCreate.items (order_of [(pear_id, 3%Z); (pear_id, 3%Z)])) 0%float
          (Some (shop 5))
        = (Return total, Some (shop 5)) /\
        place_order (order_of [(pear_id, 3%Z); (pear_id, 3%Z)]) (Some (shop 5))
        = (Return out, Some d') /\
        coll_product d' = [pear (-1)])
  /\ (forall (d : Database) (order : OrderCreate.t) (total : float) (s1 : option Database),
        NoDup (map (fun x => ObjectId (OrderItemIn.product_id x)) (OrderCreate.items order)) ->
        check_stock (OrderCreate.items order) 0%float (Some d) = (Return total, s1) ->
        Forall (fun item =>
                  int64 (- OrderItemIn.quantity item) = true /\
                  forall p, lookup_product d (OrderItemIn.product_id item) = Some p ->
                            int64 (stock_of p - OrderItemIn.quantity item) = true)
               (OrderCreate.items order) ->
        exists out d', place_order order (Some d) = (Return out, Some d')).
Proof.
  split; [|split].
  - intros d order out s' Hnd Hrun.
    apply place_order_Return in Hrun as (total & Hc & _ & ->).
    eexists. split; [reflexivity|]. simpl.
    pose proof (check_stock_Return _ _ _ _ _ Hc) as Hok.
    pose proof (decrement_distinct _ (coll_product d) Hnd) as Hdec.
    rewrite Forall_forall in Hok, Hdec |- *. intros item Hin.
    specialize (Hok item Hin). specialize (Hdec item Hin).
    unfold missing_or_short, lookup_product in Hok.
    destruct (ObjectId (OrderItemIn.product_id item)) as [i| |]; try discriminate.
    destruct (find_one (id_is i) (coll_product d)) as [p|] eqn:Hp; [|discriminate].
    apply Z.ltb_ge in Hok. exists i, p, (inc_stock (- OrderItemIn.quantity item) p).
    split; [reflexivity|]. split; [exact Hp|]. split.
    + rewrite (Hdec i eq_refl), Hp. reflexivity.
    + split; [reflexivity | lia].
  - eexists _, _, _. split; [vm_compute; reflexivity|].
    split; [vm_compute; reflexivity|]. vm_compute. reflexivity.
  - intros d order total s1 Hnd Hc Hfit.
    pose proof (check_stock_state (OrderCreate.items order) 0%float (Some d)) as Hs.
    rewrite Hc in Hs. simpl in Hs. subst s1.
    pose proof (check_stock_Return _ _ _ _ _ Hc) as Hok.
    destruct (reduce_stock_distinct (OrderCreate.items order) d Hnd) as [s' Hr].
    { rewrite Forall_forall in Hok, Hfit |- *. intros item Hin.
      specialize (Hok item Hin). destruct (Hfit item Hin) as [Hd Hn].
      unfold missing_or_short in Hok. unfold lookup_product in Hok, Hn.
      destruct (ObjectId (OrderItemIn.product_id item)) as [i| |]; try discriminate.
      destruct (find_one (id_is i) (coll_product d)) as [p|] eqn:Hp; [|discriminate].
      exists i, p. split; [reflexivity|]. split; [exact Hp|].
      split; [exact Hd | apply Hn; reflexivity]. }
    rewrite place_order_after_check, Hc, Hr. eexists _, _. reflexivity.
Qed.

(** C10.  With an empty list of items the two loops make no call at all,
    and the handler returns the new order's id, the given user id, total
    0.0 and status placed, after inserting the order record with no item,
    total 0.0 and status placed; the products are as before. *)
Theorem place_order_no_items (d : Database) (user_id : string) :
  let order := {| OrderCreate.user_id := user_id; OrderCreate.items := [] |} in
  let new := oid_of_N (next_oid d) in
  let d' :=
    {| coll_user := coll_user d; coll_product := coll_product d;
       coll_order := coll_order d ++
         [ {| order__id := new; order_user_id := user_id; order_items := [];
              order_total := 0%float; order_status := "placed" |} ];
       next_oid := N.succ (next_oid d) |} in
  check_stock (OrderCreate.items order) 0%float = ret 0%float /\
  reduce_stock (OrderCreate.items order) = ret tt /\
  place_order order (Some d)
  = (Return {| OrderOut.id := str_oid new; OrderOut.user_id := user_id;
               OrderOut.total := 0%float; OrderOut.status := "placed";
               OrderOut.created_at := None |}, Some d').
Proof.
  intros order new d'. split; [reflexivity|]. split; [reflexivity|].
  rewrite place_order_after_check. reflexivity.
Qed.

(** ** Passwords *)

Lemma hex_digit_ascii (b : byte) :
  (N_of_ascii (hex_digit (Byte.to_N b / 16)) <? 128)%N
  && (N_of_ascii (hex_digit (Byte.to_N b mod 16)) <? 128)%N = true.
Proof. destruct b; vm_compute; reflexivity. Qed.

Lemma hex_ascii (bs : bytes) : is_ascii (hex bs) = true.
Proof.
  unfold is_ascii. induction bs as [|b bs IH]; [reflexivity|].
  pose proof (hex_digit_ascii b) as Hb. apply andb_true_iff in Hb as [H1 H2].
  cbn [hex list_ascii_of_string forallb]. rewrite H1, H2, IH. reflexivity.
Qed.

Lemma hash_password_ascii (password : string) : is_ascii (hash_password password) = true.
Proof. apply hex_ascii. Qed.

Lemma verify_password_hash (password other : string) :
  verify_password password (hash_password other)
  = Return (String.eqb (hash_password password) (hash_password other)).
Proof.
  unfold verify_password, compare_digest. rewrite !hash_password_ascii. reflexivity.
Qed.

Lemma verify_password_same (password : string) :
  verify_password password (hash_password password) = Return true.
Proof. rewrite verify_password_hash, String.eqb_refl. reflexivity. Qed.

(** ** Lookups in a collection *)

Lemma find_one_app {D} (q : D -> bool) (l1 l2 : list D) :
  find_one q (l1 ++ l2)
  = match find_one q l1 with Some x => Some x | None => find_one q l2 end.
Proof.
  induction l1 as [|x l1 IH]; simpl; [reflexivity|]. destruct (q x); [reflexivity | exact IH].
Qed.

Lemma find_one_None {D} (q : D -> bool) (c : list D) :
  find_one q c = None <-> Forall (fun x => q x = false) c.
Proof.
  induction c as [|x c IH]; simpl.
  - split; [constructor | reflexivity].
  - destruct (q x) eqn:E.
    + split; [discriminate|]. intros H. inversion H; congruence.
    + rewrite IH. split; [intros H; constructor; assumption | intros H; inversion H; assumption].
Qed.

Lemma find_one_split {D} (q : D -> bool) (c : list D) (x : D) :
  find_one q c = Some x ->
  exists l1 l2, c = l1 ++ x :: l2 /\ Forall (fun y => q y = false) l1 /\ q x = true.
Proof.
  induction c as [|y c IH]; simpl; [discriminate|].
  destruct (q y) eqn:E.
  - intros [= ->]. exists [], c. repeat split; [constructor | exact E].
  - intros H. destruct (IH H) as (l1 & l2 & -> & Hl1 & Hx).
    exists (y :: l1), l2. repeat split; [constructor; assumption | exact Hx].
Qed.

Lemma filter_none {D} (q : D -> bool) (c : list D) :
  Forall (fun x => q x = false) c -> List.filter q c = [].
Proof.
  induction 1 as [|x c Hx _ IH]; simpl; [reflexivity|]. rewrite Hx. exact IH.
Qed.

Lemma filter_length_none {D} (q : D -> bool) (c : list D) :
  length (List.filter q c) = 0%nat -> Forall (fun x => q x = false) c.
Proof.
  induction c as [|x c IH]; simpl; [constructor|].
  destruct (q x) eqn:E; simpl; [discriminate|]. intros H. constructor; [exact E | exact (IH H)].
Qed.

Lemma update_one_none {D} (q : D -> bool) (upd : D -> D) (c : list D) :
  Forall (fun x => q x = false) c -> update_one q upd c = c.
Proof.
  induction 1 as [|x c Hx _ IH]; simpl; [reflexivity|]. rewrite Hx, IH. reflexivity.
Qed.

Lemma update_one_app {D} (q : D -> bool) (upd : D -> D) (l1 l2 : list D) (x : D) :
  Forall (fun y => q y = false) l1 -> q x = true ->
  update_one q upd (l1 ++ x :: l2) = l1 ++ upd x :: l2.
Proof.
  intros H Hx. induction H as [|y l1 Hy _ IH]; simpl.
  - rewrite Hx. reflexivity.
  - rewrite Hy, IH. reflexivity.
Qed.

(** ** Startup seeding *)

Lemma email_is_true (e : string) (u : UserDoc) :
  email_is e u = true <-> user_email u = Some e.
Proof. unfold email_is. apply bool_decide_eq_true. Qed.

Lemma role_is_true (r : string) (u : UserDoc) :
  role_is r u = true <-> user_role u = Some r.
Proof. unfold role_is. apply bool_decide_eq_true. Qed.

Lemma demote_reserved (u : UserDoc) :
  email_is ADMIN_EMAIL u = true ->
  (if other_admin u then set_role "user" u else u) = u.
Proof. unfold other_admin. intros ->. reflexivity. Qed.

Lemma demote_others (l : list UserDoc) :
  Forall (fun x => email_is ADMIN_EMAIL x = false) l ->
  Forall (fun x => email_is ADMIN_EMAIL x = false /\ role_is "admin" x = false)
         (update_many other_admin (set_role "user") l).
Proof.
  unfold update_many. induction 1 as [|x l Hx _ IH]; simpl; constructor; [|exact IH].
  unfold other_admin. rewrite Hx. simpl. destruct (role_is "admin" x) eqn:Er.
  - split; [exact Hx | reflexivity].
  - split; assumption.
Qed.

Lemma single_admin_only (c : list UserDoc) (u : UserDoc) :
  single_admin c u -> only_admin_is_reserved c /\ at_most_one_reserved c.
Proof.
  intros (l1 & l2 & -> & Hall & He & Hr & Hh).
  apply Forall_app in Hall as [H1 H2].
  assert (E1 : Forall (fun x => email_is ADMIN_EMAIL x = false) l1)
    by (eapply Forall_impl; [exact H1|]; intros ? []; assumption).
  assert (E2 : Forall (fun x => email_is ADMIN_EMAIL x = false) l2)
    by (eapply Forall_impl; [exact H2|]; intros ? []; assumption).
  assert (R1 : Forall (fun x => role_is "admin" x = false) l1)
    by (eapply Forall_impl; [exact H1|]; intros ? []; assumption).
  assert (R2 : Forall (fun x => role_is "admin" x = false) l2)
    by (eapply Forall_impl; [exact H2|]; intros ? []; assumption).
  assert (Hue : email_is ADMIN_EMAIL u = true) by (apply email_is_true; exact He).
  assert (Hur : role_is "admin" u = true) by (apply role_is_true; exact Hr).
  split.
  - exists u. split; [|split; [|split; assumption]].
    + rewrite List.filter_app. simpl. rewrite Hur, (filter_none _ _ R1), (filter_none _ _ R2).
      reflexivity.
    + rewrite find_one_app. apply find_one_None in E1. rewrite E1. simpl. rewrite Hue.
      reflexivity.
  - unfold at_most_one_reserved. rewrite List.filter_app. simpl.
    rewrite Hue, (filter_none _ _ E1), (filter_none _ _ E2). simpl. lia.
Qed.

Lemma seed_admin_once (d : Database) (t1 t2 : Z) :
  at_most_one_reserved (coll_user d) ->
  exists d1 u,
    seed_admin t1 t2 (Some d) = (Return tt, Some d1) /\ single_admin (coll_user d1) u.
Proof.
  intros Hone. unfold seed_admin. unfold_monad. simpl.
  destruct (find_one (email_is ADMIN_EMAIL) (coll_user d)) as [u0|] eqn:Hf; simpl.
  - destruct (find_one_split _ _ _ Hf) as (l1 & l2 & Hc & Hl1 & Hu0).
    eexists _, _. split; [reflexivity|]. simpl. rewrite Hc.
    assert (Hl2 : Forall (fun x => email_is ADMIN_EMAIL x = false) l2).
    { unfold at_most_one_reserved in Hone. rewrite Hc, List.filter_app in Hone.
      simpl in Hone. rewrite Hu0, length_app in Hone. simpl in Hone.
      apply filter_length_none. lia. }
    unfold update_many. rewrite map_app. simpl map. rewrite (demote_reserved u0 Hu0).
    pose proof (demote_others l1 Hl1) as D1. pose proof (demote_others l2 Hl2) as D2.
    unfold update_many in D1, D2.
    rewrite update_one_app;
      [| eapply Forall_impl; [exact D1|]; intros ? []; assumption | exact Hu0].
    eexists _, _. split; [reflexivity|]. split; [apply Forall_app; split; assumption|].
    simpl. apply email_is_true in Hu0. repeat split; assumption.
  - apply find_one_None in Hf.
    eexists _, _. split; [reflexivity|]. simpl.
    unfold update_many. rewrite map_app. simpl map.
    pose proof (demote_others _ Hf) as D. unfold update_many in D.
    eexists _, []. split; [reflexivity|]. rewrite app_nil_r. split; [exact D|].
    repeat split.
Qed.

(** C3, as amended.  When at most one record of the user collection
    carries the reserved email, startup seeding completes, and after it,
    and likewise after a second run, the records with role admin are
    exactly the reserved-email record, which holds the hash of the
    configured admin password. *)
Theorem seed_admin_single_admin (d : Database) :
  at_most_one_reserved (coll_user d) -> seeding_outcome d.
Proof.
  intros Hone t1 t2 t3 t4.
  destruct (seed_admin_once d t1 t2 Hone) as (d1 & u1 & Hrun1 & Hs1).
  destruct (single_admin_only _ _ Hs1) as [Ho1 Hone1].
  destruct (seed_admin_once d1 t3 t4 Hone1) as (d2 & u2 & Hrun2 & Hs2).
  destruct (single_admin_only _ _ Hs2) as [Ho2 _].
  exists d1, d2. repeat split; assumption.
Qed.

Lemma find_one_map_fixed {D} (q : D -> bool) (h : D -> D) (c : list D) :
  (forall x, q (h x) = q x) -> (forall x, q x = true -> h x = x) ->
  find_one q (map h c) = find_one q c.
Proof.
  intros Hq Hfix. induction c as [|x c IH]; simpl; [reflexivity|].
  rewrite Hq. destruct (q x) eqn:E; [rewrite (Hfix x E); reflexivity | exact IH].
Qed.

Lemma demote_keeps_email (x : UserDoc) :
  email_is ADMIN_EMAIL (if other_admin x then set_role "user" x else x)
  = email_is ADMIN_EMAIL x.
Proof. destruct (other_admin x); reflexivity. Qed.

(** Seeding establishes [seeded], from any user collection. *)
Lemma seed_admin_seeded (d : Database) (t1 t2 : Z) :
  exists d1, seed_admin t1 t2 (Some d) = (Return tt, Some d1) /\ seeded d1.
Proof.
  unfold seed_admin, seeded. unfold_monad. simpl.
  destruct (find_one (email_is ADMIN_EMAIL) (coll_user d)) as [u0|] eqn:Hf; simpl.
  - eexists. split; [reflexivity|]. simpl.
    rewrite find_one_update_one_same by (intros x Hx; exact Hx).
    unfold update_many.
    rewrite find_one_map_fixed, Hf by (first [apply demote_keeps_email | apply demote_reserved]).
    eexists. split; [reflexivity|]. split; reflexivity.
  - eexists. split; [reflexivity|]. simpl. unfold update_many.
    rewrite find_one_map_fixed by (first [apply demote_keeps_email | apply demote_reserved]).
    rewrite find_one_app, Hf. simpl.
    eexists. split; [reflexivity|]. split; reflexivity.
Qed.

(** ** Signup and login *)

Lemma user_signup_Return (payload : SignupRequest.t) (d : Database) (out : UserPublic.t)
    (s' : option Database) :
  user_signup payload (Some d) = (Return out, s') ->
  SignupRequest.email payload <> ADMIN_EMAIL /\
  find_one (email_is (SignupRequest.email payload)) (coll_user d) = None /\
  s' = Some (bump_oid (set_user (coll_user d ++ [signup_doc payload (oid_of_N (next_oid d))]) d)) /\
  out = {| UserPublic.id := str_oid (oid_of_N (next_oid d));
           UserPublic.name := SignupRequest.name payload;
           UserPublic.email := Some (SignupRequest.email payload);
           UserPublic.role := "user" |}.
Proof.
  unfold user_signup. unfold_monad. simpl.
  destruct (bool_decide (SignupRequest.email payload = ADMIN_EMAIL)) eqn:Ea; [discriminate|].
  apply bool_decide_eq_false in Ea. simpl.
  destruct (find_one (email_is (SignupRequest.email payload)) (coll_user d)) eqn:Ef; simpl;
    [discriminate|].
  intros [= <- <-]. repeat split. exact Ea.
Qed.

(** Signups keep [seeded]. *)
Lemma user_signup_seeded (payload : SignupRequest.t) (d d' : Database) (out : UserPublic.t) :
  seeded d -> user_signup payload (Some d) = (Return out, Some d') -> seeded d'.
Proof.
  intros (u & Hu & Hr & Hh) Hs. apply user_signup_Return in Hs as (_ & _ & [= ->] & _).
  exists u. simpl. rewrite find_one_app, Hu. repeat split; assumption.
Qed.

(** The outcome of either login once the lookup has found a record. *)
Lemma user_login_found (payload : LoginRequest.t) (d : Database) (user : UserDoc) :
  find_one (email_is (LoginRequest.email payload)) (coll_user d) = Some user ->
  user_login payload (Some d) =
  (match verify_password (LoginRequest.password payload)
           (default "" (user_password_hash user)) with
   | Return ok =>
       if negb ok then HTTPException 401 "Invalid credentials"
       else if negb (bool_decide (user_role user = Some "user"))
       then HTTPException 403 "Not a user account"
       else Return {| UserPublic.id := str_oid (user__id user);
                      UserPublic.name := default "" (user_name user);
                      UserPublic.email := user_email user;
                      UserPublic.role := "user" |}
   | HTTPException c msg => HTTPException c msg
   | Uncaught e => Uncaught e
   end, Some d).
Proof.
  intros Hf. unfold user_login. unfold_monad. rewrite Hf.
  destruct (verify_password _ _) as [ok| |]; [|reflexivity..].
  destruct ok; [|reflexivity].
  destruct (bool_decide (user_role user = Some "user")); reflexivity.
Qed.

Lemma admin_login_found (payload : LoginRequest.t) (d : Database) (user : UserDoc) :
  find_one (email_is (LoginRequest.email payload)) (coll_user d) = Some user ->
  admin_login payload (Some d) =
  (match verify_password (LoginRequest.password payload)
           (default "" (user_password_hash user)) with
   | Return ok =>
       if negb ok then HTTPException 401 "Invalid credentials"
       else if negb (bool_decide (LoginRequest.email payload = ADMIN_EMAIL))
               || negb (bool_decide (user_role user = Some "admin"))
       then HTTPException 403 "Admin access denied"
       else Return {| UserPublic.id := str_oid (user__id user);
                      UserPublic.name := default "Admin" (user_name user);
                      UserPublic.email := user_email user;
                      UserPublic.role := "admin" |}
   | HTTPException c msg => HTTPException c msg
   | Uncaught e => Uncaught e
   end, Some d).
Proof.
  intros Hf. unfold admin_login. unfold_monad. rewrite Hf.
  destruct (verify_password _ _) as [ok| |]; [|reflexivity..].
  destruct ok; [|reflexivity].
  destruct (negb (bool_decide (LoginRequest.email payload = ADMIN_EMAIL))
            || negb (bool_decide (user_role user = Some "admin"))); reflexivity.
Qed.

Lemma admin_login_not_found (payload : LoginRequest.t) (d : Database) :
  find_one (email_is (LoginRequest.email payload)) (coll_user d) = None ->
  admin_login payload (Some d) = (HTTPException 401 "Invalid credentials", Some d).
Proof. intros Hf. unfold admin_login. unfold_monad. rewrite Hf. reflexivity. Qed.

(** C6.  After a successful signup, logging in as a user with the same
    email and password succeeds and returns the public view the signup
    returned: the same id, name and email, and role user. *)
Theorem user_signup_then_login (payload : SignupRequest.t) (d : Database)
    (out : UserPublic.t) (s' : option Database) :
  user_signup payload (Some d) = (Return out, s') ->
  user_login {| LoginRequest.email := SignupRequest.email payload;
                LoginRequest.password := SignupRequest.password payload |} s'
  = (Return out, s') /\
  UserPublic.role out = "user" /\
  UserPublic.email out = Some (SignupRequest.email payload).
Proof.
  intros Hs. apply user_signup_Return in Hs as (_ & Hnone & -> & ->).
  split; [|split; reflexivity].
  rewrite (user_login_found _ _ (signup_doc payload (oid_of_N (next_oid d)))).
  - cbn [LoginRequest.password signup_doc user_password_hash default from_option id].
    rewrite verify_password_same. reflexivity.
  - cbn [LoginRequest.email coll_user bump_oid set_user].
    rewrite find_one_app, Hnone. unfold find_one. cbn [List.find].
    replace (email_is _ _) with true; [reflexivity|].
    symmetry. apply email_is_true. reflexivity.
Qed.

(** C8.  A password verifies against its own hash; and the hash stored
    at signup is [hash_password] of the password alone, so two signups
    with the same password, by any users in any states, store the same
    digest. *)
Theorem hash_password_deterministic :
  (forall password, verify_password password (hash_password password) = Return true)
  /\ (forall (p1 p2 : SignupRequest.t) (d1 d2 : Database) (out1 out2 : UserPublic.t)
             (s1 s2 : option Database),
        SignupRequest.password p1 = SignupRequest.password p2 ->
        user_signup p1 (Some d1) = (Return out1, s1) ->
        user_signup p2 (Some d2) = (Return out2, s2) ->
        exists d1' d2' u1 u2,
          s1 = Some d1' /\ s2 = Some d2' /\
          coll_user d1' = coll_user d1 ++ [u1] /\
          coll_user d2' = coll_user d2 ++ [u2] /\
          user_password_hash u1 = Some (hash_password (SignupRequest.password p1)) /\
          user_password_hash u2 = user_password_hash u1).
Proof.
  split; [exact verify_password_same|].
  intros p1 p2 d1 d2 out1 out2 s1 s2 Hpw H1 H2.
  apply user_signup_Return in H1 as (_ & _ & -> & _).
  apply user_signup_Return in H2 as (_ & _ & -> & _).
  eexists _, _, _, _. repeat split. simpl. rewrite Hpw. reflexivity.
Qed.

(** ** Admin login *)

Lemma admin_login_state (payload : LoginRequest.t) (d : Database) :
  (admin_login payload (Some d)).2 = Some d.
Proof.
  destruct (find_one (email_is (LoginRequest.email payload)) (coll_user d)) as [user|] eqn:Hf.
  - rewrite (admin_login_found _ _ _ Hf). reflexivity.
  - rewrite (admin_login_not_found _ _ Hf). reflexivity.
Qed.

Lemma admin_login_other_email (payload : LoginRequest.t) (d : Database) :
  LoginRequest.email payload <> ADMIN_EMAIL ->
  is_Return (admin_login payload (Some d)).1 = false.
Proof.
  intros Hne.
  destruct (find_one (email_is (LoginRequest.email payload)) (coll_user d)) as [user|] eqn:Hf.
  - rewrite (admin_login_found _ _ _ Hf).
    rewrite (bool_decide_eq_false_2 _ Hne).
    destruct (verify_password _ _) as [[|]| |]; reflexivity.
  - rewrite (admin_login_not_found _ _ Hf). reflexivity.
Qed.

Lemma admin_login_reserved (payload : LoginRequest.t) (d : Database) (u : UserDoc) :
  LoginRequest.email payload = ADMIN_EMAIL ->
  find_one (email_is ADMIN_EMAIL) (coll_user d) = Some u ->
  user_role u = Some "admin" ->
  user_password_hash u = Some (hash_password ADMIN_PASSWORD) ->
  admin_login payload (Some d) =
  (if String.eqb (hash_password (LoginRequest.password payload)) (hash_password ADMIN_PASSWORD)
   then Return {| UserPublic.id := str_oid (user__id u);
                  UserPublic.name := default "Admin" (user_name u);
                  UserPublic.email := user_email u;
                  UserPublic.role := "admin" |}
   else HTTPException 401 "Invalid credentials", Some d).
Proof.
  intros He Hf Hr Hh. rewrite <- He in Hf. rewrite (admin_login_found _ _ _ Hf).
  rewrite Hh. cbn [default from_option id]. rewrite verify_password_hash.
  rewrite (bool_decide_eq_true_2 _ He), (bool_decide_eq_true_2 _ Hr).
  destruct (String.eqb _ _); reflexivity.
Qed.

(** C5.  In a seeded state, admin login succeeds exactly when the email
    is the reserved one and the password verifies against the hash of the
    configured admin password, which is what the reserved record, an
    admin, stores; it then returns the reserved record's view with role
    admin and changes nothing.  For every other registered account it
    fails, whatever the account's role: with 403 "Admin access denied"
    when the password is the account's, with 401 "Invalid credentials"
    otherwise. *)
Theorem admin_login_reserved_only (d : Database) (payload : LoginRequest.t) :
  seeded d ->
  (is_Return (admin_login payload (Some d)).1 = true <->
     LoginRequest.email payload = ADMIN_EMAIL /\
     verify_password (LoginRequest.password payload) (hash_password ADMIN_PASSWORD)
     = Return true)
  /\ (forall out s',
        admin_login payload (Some d) = (Return out, s') ->
        s' = Some d /\ UserPublic.role out = "admin" /\
        UserPublic.email out = Some ADMIN_EMAIL)
  /\ (forall user,
        LoginRequest.email payload <> ADMIN_EMAIL ->
        find_one (email_is (LoginRequest.email payload)) (coll_user d) = Some user ->
        registered user ->
        exists ok,
          verify_password (LoginRequest.password payload)
            (default "" (user_password_hash user)) = Return ok /\
          admin_login payload (Some d)
          = (if ok then HTTPException 403 "Admin access denied"
             else HTTPException 401 "Invalid credentials", Some d)).
Proof.
  intros (u & Hu & Hr & Hh).
  destruct (decide (LoginRequest.email payload = ADMIN_EMAIL)) as [He|Hne].
  - pose proof (admin_login_reserved payload d u He Hu Hr Hh) as Hlogin.
    split; [|split].
    + rewrite Hlogin, verify_password_hash.
      destruct (String.eqb _ _); simpl; split; try tauto; try discriminate.
      * intros [_ [=]].
    + intros out s'. rewrite Hlogin.
      destruct (String.eqb _ _); [|discriminate].
      intros [= <- <-]. split; [reflexivity|]. split; [reflexivity|].
      cbn [UserPublic.email]. apply find_one_Some in Hu as [_ Hu]. apply email_is_true in Hu.
      exact Hu.
    + intros user Hne. contradiction.
  - pose proof (admin_login_other_email payload d Hne) as Hfail.
    split; [|split].
    + rewrite Hfail. split; [discriminate | intros [He _]; contradiction].
    + intros out s' Hret. rewrite Hret in Hfail. discriminate.
    + intros user _ Hf (p0 & Hp0). rewrite (admin_login_found _ _ _ Hf), Hp0.
      cbn [default from_option id]. rewrite verify_password_hash.
      eexists. split; [reflexivity|].
      rewrite (bool_decide_eq_false_2 _ Hne). destruct (String.eqb _ _); reflexivity.
Qed.

(** * Further properties of the program *)

(** ** Object ids and digests *)

Lemma hex_digit_value (b : byte) :
  hex_value (hex_digit (Byte.to_N b / 16)) = Some (Byte.to_N b / 16)%N /\
  hex_value (hex_digit (Byte.to_N b mod 16)) = Some (Byte.to_N b mod 16)%N /\
  byte_of_N (16 * (Byte.to_N b / 16) + Byte.to_N b mod 16) = b.
Proof. destruct b; vm_compute; repeat split. Qed.

Lemma hex_digit_not_space (b : byte) :
  is_space (hex_digit (Byte.to_N b / 16)) = false.
Proof. destruct b; vm_compute; reflexivity. Qed.

Lemma fromhex_hex (bs : bytes) : fromhex (hex bs) = Some bs.
Proof.
  induction bs as [|b bs IH]; [reflexivity|].
  destruct (hex_digit_value b) as (H1 & H2 & H3).
  cbn [hex fromhex]. rewrite hex_digit_not_space, H1, H2, IH, H3. reflexivity.
Qed.

Lemma hex_length (bs : bytes) : String.length (hex bs) = (2 * length bs)%nat.
Proof.
  induction bs as [|b bs IH]; [reflexivity|].
  cbn [hex String.length length]. rewrite IH. lia.
Qed.

Lemma oid_of_N_length (n : N) : length (oid_of_N n) = 12%nat.
Proof. reflexivity. Qed.

(** The string of an object id reads back as that object id. *)
Lemma ObjectId_str_oid (o : oid) :
  length o = 12%nat -> ObjectId (str_oid o) = Return o.
Proof.
  intros Hlen. unfold ObjectId, str_oid. rewrite hex_length, Hlen, fromhex_hex. reflexivity.
Qed.

Lemma be32_length (w : N) : length (SHA256.be32 w) = 4%nat.
Proof. reflexivity. Qed.

Lemma digest_length (msg : bytes) : length (SHA256.digest msg) = 32%nat.
Proof. unfold SHA256.digest. rewrite !length_app, !be32_length. reflexivity. Qed.

Lemma hex_digit_lower (b : byte) :
  is_lower_hex (hex_digit (Byte.to_N b / 16))
  && is_lower_hex (hex_digit (Byte.to_N b mod 16)) = true.
Proof. destruct b; vm_compute; reflexivity. Qed.

Lemma hex_lower (bs : bytes) : forallb is_lower_hex (list_ascii_of_string (hex bs)) = true.
Proof.
  induction bs as [|b bs IH]; [reflexivity|].
  pose proof (hex_digit_lower b) as Hb. apply andb_true_iff in Hb as [H1 H2].
  cbn [hex list_ascii_of_string forallb]. rewrite H1, H2, IH. reflexivity.
Qed.

(** Every password hash is a string of 64 lowercase hexadecimal digits,
    whatever the password and the secret key. *)
Theorem hash_password_format (password : string) :
  String.length (hash_password password) = 64%nat /\
  forallb is_lower_hex (list_ascii_of_string (hash_password password)) = true.
Proof.
  unfold hash_password, hexdigest. split; [|apply hex_lower].
  rewrite hex_length. unfold hmac_sha256. rewrite digest_length. reflexivity.
Qed.

(** A stored hash with a character outside ASCII makes the comparison
    raise, whatever the password. *)
Theorem verify_password_non_ascii (password password_hash : string) :
  is_ascii password_hash = false ->
  verify_password password password_hash
  = Uncaught (TypeError "comparing strings with non-ASCII characters is not supported").
Proof.
  intros H. unfold verify_password, compare_digest. rewrite H, andb_false_r. reflexivity.
Qed.

(** ** Signup and the two logins *)

Lemma user_signup_run (payload : SignupRequest.t) (d : Database) :
  user_signup payload (Some d) =
  if bool_decide (SignupRequest.email payload = ADMIN_EMAIL)
  then (HTTPException 400 "This email is reserved for admin", Some d)
  else match find_one (email_is (SignupRequest.email payload)) (coll_user d) with
       | Some _ => (HTTPException 400 "Email already registered", Some d)
       | None =>
           (Return {| UserPublic.id := str_oid (oid_of_N (next_oid d));
                      UserPublic.name := SignupRequest.name payload;
                      UserPublic.email := Some (SignupRequest.email payload);
                      UserPublic.role := "user" |},
            Some (bump_oid (set_user (coll_user d ++ [signup_doc payload (oid_of_N (next_oid d))]) d)))
       end.
Proof.
  unfold user_signup. unfold_monad.
  destruct (bool_decide (SignupRequest.email payload = ADMIN_EMAIL)); [reflexivity|].
  destruct (find_one (email_is (SignupRequest.email payload)) (coll_user d)); reflexivity.
Qed.

Lemma find_one_email_emails (e : string) (c : list UserDoc) :
  find_one (email_is e) c = None <-> e ∉ emails c.
Proof.
  rewrite find_one_None. unfold emails. rewrite list_elem_of_omap. split.
  - intros Hall (u & Hu & He). rewrite Forall_forall in Hall.
    specialize (Hall u Hu). apply email_is_true in He. congruence.
  - intros Hno. apply Forall_forall. intros u Hu.
    destruct (email_is e u) eqn:E; [|reflexivity].
    exfalso. apply Hno. exists u. split; [exact Hu | apply email_is_true; exact E].
Qed.

(** Whatever the request and the database, a signup leaves every record
    there was as it is, the products and the orders too, and adds at
    most one record: a user, never an admin, under an email that is not
    the reserved one and that no record carried. *)
Theorem user_signup_effect (payload : SignupRequest.t) (d : Database) :
  exists d',
    (user_signup payload (Some d)).2 = Some d' /\
    coll_product d' = coll_product d /\ coll_order d' = coll_order d /\
    (coll_user d' = coll_user d \/
     exists u,
       coll_user d' = coll_user d ++ [u] /\
       user_role u = Some "user" /\
       user_email u = Some (SignupRequest.email payload) /\
       SignupRequest.email payload <> ADMIN_EMAIL /\
       SignupRequest.email payload ∉ emails (coll_user d)).
Proof.
  rewrite user_signup_run.
  destruct (bool_decide (SignupRequest.email payload = ADMIN_EMAIL)) eqn:Ea.
  - exists d. repeat split. left. reflexivity.
  - apply bool_decide_eq_false in Ea.
    destruct (find_one (email_is (SignupRequest.email payload)) (coll_user d)) eqn:Ef.
    + exists d. repeat split. left. reflexivity.
    + eexists. split; [reflexivity|]. split; [reflexivity|]. split; [reflexivity|].
      right. eexists. split; [reflexivity|]. repeat split; [exact Ea|].
      apply find_one_email_emails. exact Ef.
Qed.

(** Once an email is signed up, a second signup under it is rejected,
    whatever its name and password, and changes nothing. *)
Theorem user_signup_twice (first second : SignupRequest.t) (d : Database)
    (out : UserPublic.t) (s' : option Database) :
  user_signup first (Some d) = (Return out, s') ->
  SignupRequest.email second = SignupRequest.email first ->
  user_signup second s' = (HTTPException 400 "Email already registered", s').
Proof.
  intros Hs He. apply user_signup_Return in Hs as (Hne & Hnone & -> & _).
  rewrite user_signup_run, He. rewrite (bool_decide_eq_false_2 _ Hne).
  cbn [coll_user bump_oid set_user]. rewrite find_one_app, Hnone.
  unfold find_one. cbn [List.find].
  replace (email_is _ _) with true; [reflexivity|].
  symmetry. apply email_is_true. reflexivity.
Qed.

Lemma user_login_not_found (payload : LoginRequest.t) (d : Database) :
  find_one (email_is (LoginRequest.email payload)) (coll_user d) = None ->
  user_login payload (Some d) = (HTTPException 401 "Invalid credentials", Some d).
Proof. intros Hf. unfold user_login. unfold_monad. rewrite Hf. reflexivity. Qed.

Lemma user_login_state (payload : LoginRequest.t) (d : Database) :
  (user_login payload (Some d)).2 = Some d.
Proof.
  destruct (find_one (email_is (LoginRequest.email payload)) (coll_user d)) as [user|] eqn:Hf.
  - rewrite (user_login_found _ _ _ Hf). reflexivity.
  - rewrite (user_login_not_found _ _ Hf). reflexivity.
Qed.

(** Neither login writes: whatever the credentials and the outcome, the
    state after is the state before, available or not. *)
Theorem login_read_only (payload : LoginRequest.t) (s : option Database) :
  (user_login payload s).2 = s /\ (admin_login payload s).2 = s.
Proof.
  destruct s as [d|].
  - split; [apply user_login_state | apply admin_login_state].
  - split; reflexivity.
Qed.

(** No credentials pass both logins in one state: the record they find
    has one role. *)
Theorem login_exclusive (payload : LoginRequest.t) (d : Database) :
  is_Return (user_login payload (Some d)).1 && is_Return (admin_login payload (Some d)).1
  = false.
Proof.
  destruct (find_one (email_is (LoginRequest.email payload)) (coll_user d)) as [user|] eqn:Hf.
  - rewrite (user_login_found _ _ _ Hf), (admin_login_found _ _ _ Hf).
    destruct (verify_password _ _) as [[|]| |]; try reflexivity.
    cbn [negb fst].
    destruct (bool_decide (user_role user = Some "user")) eqn:Eu; [|reflexivity].
    apply bool_decide_eq_true in Eu.
    rewrite (bool_decide_eq_false_2 (user_role user = Some "admin")) by (rewrite Eu; discriminate).
    rewrite orb_true_r. reflexivity.
  - rewrite (user_login_not_found _ _ Hf). reflexivity.
Qed.

(** The account of a successful signup is refused at the admin login,
    with its own password: 403, admin access denied. *)
Theorem user_signup_then_admin_login (payload : SignupRequest.t) (d : Database)
    (out : UserPublic.t) (s' : option Database) :
  user_signup payload (Some d) = (Return out, s') ->
  admin_login {| LoginRequest.email := SignupRequest.email payload;
                 LoginRequest.password := SignupRequest.password payload |} s'
  = (HTTPException 403 "Admin access denied", s').
Proof.
  intros Hs. apply user_signup_Return in Hs as (Hne & Hnone & -> & _).
  rewrite (admin_login_found _ _ (signup_doc payload (oid_of_N (next_oid d)))).
  - cbn [LoginRequest.password LoginRequest.email signup_doc user_password_hash
           default from_option id].
    rewrite verify_password_same. cbn [negb].
    rewrite (bool_decide_eq_false_2 _ Hne). reflexivity.
  - cbn [LoginRequest.email coll_user bump_oid set_user].
    rewrite find_one_app, Hnone. unfold find_one. cbn [List.find].
    replace (email_is _ _) with true; [reflexivity|].
    symmetry. apply email_is_true. reflexivity.
Qed.

(** ** Product creation and listing *)

Lemma create_product_run (req : AdminCreateProductRequest.t) (d : Database) :
  create_product req (Some d) =
  let creds := AdminCreateProductRequest.credentials req in
  let denied := (HTTPException 403 "Admin access denied", Some d) in
  match find_one (email_is (LoginRequest.email creds)) (coll_user d) with
  | None => denied
  | Some admin =>
      match verify_password (LoginRequest.password creds)
              (default "" (user_password_hash admin)) with
      | Return ok =>
          if negb ok
             || negb (bool_decide (LoginRequest.email creds = ADMIN_EMAIL))
             || negb (bool_decide (user_role admin = Some "admin"))
          then denied
          else
            (Return {| ProductOut.id := str_oid (oid_of_N (next_oid d));
                       ProductOut.product := AdminCreateProductRequest.product req |},
             Some (bump_oid (set_product
                     (coll_product d ++
                        [ProductIn.model_dump (AdminCreateProductRequest.product req)
                           (oid_of_N (next_oid d))]) d)))
      | HTTPException c msg => (HTTPException c msg, Some d)
      | Uncaught e => (Uncaught e, Some d)
      end
  end.
Proof.
  unfold create_product. unfold_monad. cbv zeta.
  destruct (find_one _ (coll_user d)) as [admin|]; [|reflexivity].
  destruct (verify_password _ _) as [ok| |]; [|reflexivity..].
  destruct (negb ok || negb (bool_decide _) || negb (bool_decide _)); reflexivity.
Qed.

(** [create_product] inserts exactly when [admin_login] would accept the
    credentials of the request; when it does not insert it changes
    nothing, and when it does it appends the product as given, under the
    id it returns, and touches no other collection. *)
Theorem create_product_authorization (req : AdminCreateProductRequest.t) (d : Database) :
  is_Return (create_product req (Some d)).1
  = is_Return (admin_login (AdminCreateProductRequest.credentials req) (Some d)).1
  /\ (is_Return (create_product req (Some d)).1 = false ->
      (create_product req (Some d)).2 = Some d)
  /\ (forall out s',
        create_product req (Some d) = (Return out, s') ->
        exists d' p,
          s' = Some d' /\
          coll_product d' = coll_product d ++ [p] /\
          coll_user d' = coll_user d /\ coll_order d' = coll_order d /\
          p = ProductIn.model_dump (AdminCreateProductRequest.product req) (product__id p) /\
          str_oid (product__id p) = ProductOut.id out /\
          ProductOut.product out = AdminCreateProductRequest.product req).
Proof.
  rewrite create_product_run. cbv zeta.
  destruct (find_one (email_is (LoginRequest.email (AdminCreateProductRequest.credentials req)))
              (coll_user d)) as [admin|] eqn:Hf.
  - rewrite (admin_login_found _ _ _ Hf).
    destruct (verify_password _ _) as [ok| |];
      [| split; [reflexivity | split; [reflexivity | discriminate]]..].
    destruct ok; cbn [negb orb];
      [| split; [reflexivity | split; [reflexivity | discriminate]]].
    destruct (negb (bool_decide _) || negb (bool_decide _));
      [split; [reflexivity | split; [reflexivity | discriminate]]|].
    split; [reflexivity|]. split; [discriminate|].
    intros out s' [= <- <-]. eexists _, _. split; [reflexivity|].
    split; [reflexivity|]. repeat split.
  - rewrite (admin_login_not_found _ _ Hf).
    split; [reflexivity | split; [reflexivity | discriminate]].
Qed.

Lemma list_products_run (d : Database) :
  list_products (Some d) = (Return (map product_view (coll_product d)), Some d).
Proof. reflexivity. Qed.

(** After a product is created, the listing is the listing from before
    followed by the new product: the id that was returned and the fields
    of the request.  Listing changes nothing. *)
Theorem create_product_then_list (req : AdminCreateProductRequest.t) (d : Database)
    (out : ProductOut.t) (s' : option Database) :
  create_product req (Some d) = (Return out, s') ->
  exists rows,
    list_products (Some d) = (Return rows, Some d) /\
    list_products s'
    = (Return (rows ++
               [ {| ProductView.id := ProductOut.id out;
                    ProductView.name := Some (ProductIn.name (ProductOut.product out));
                    ProductView.description := ProductIn.description (ProductOut.product out);
                    ProductView.price := ProductIn.price (ProductOut.product out);
                    ProductView.image := ProductIn.image (ProductOut.product out);
                    ProductView.stock := ProductIn.stock (ProductOut.product out) |} ]), s').
Proof.
  intros Hc.
  destruct (proj2 (proj2 (create_product_authorization req d)) out s' Hc)
    as (d' & p & -> & Hprod & _ & _ & Hp & Hid & Hout).
  exists (map product_view (coll_product d)). split; [apply list_products_run|].
  rewrite list_products_run, Hprod, map_app. cbn [map]. do 3 f_equal.
  rewrite Hout. unfold product_view. rewrite Hid. rewrite Hp. reflexivity.
Qed.

Lemma find_one_fresh (i : oid) (c : list ProductDoc) (p : ProductDoc) :
  Forall (fun x => product__id x <> i) c -> product__id p = i ->
  find_one (id_is i) (c ++ [p]) = Some p.
Proof.
  intros Hfresh Hp. rewrite find_one_app.
  replace (find_one (id_is i) c) with (@None ProductDoc).
  - unfold find_one. cbn [List.find]. unfold id_is.
    rewrite (bool_decide_eq_true_2 _ Hp). reflexivity.
  - symmetry. apply find_one_None. eapply Forall_impl; [exact Hfresh|].
    intros x Hx. apply bool_decide_eq_false. exact Hx.
Qed.

(** A product that was created can be ordered under the id that was
    returned: when the driver's id is new among the products, the stock
    fits eight bytes and the quantity is between 0 and the stock (and
    converts to [float]), the order is placed, for the price times the
    quantity, and the product is left with its stock minus the
    quantity. *)
Theorem create_product_then_order (req : AdminCreateProductRequest.t) (d : Database)
    (out : ProductOut.t) (s' : option Database) (user_id : string) (quantity : Z) (q : float) :
  create_product req (Some d) = (Return out, s') ->
  Forall (fun x => product__id x <> oid_of_N (next_oid d)) (coll_product d) ->
  (0 <= quantity <= ProductIn.stock (AdminCreateProductRequest.product req))%Z ->
  (ProductIn.stock (AdminCreateProductRequest.product req) < 2 ^ 63)%Z ->
  float_of_int quantity = Return q ->
  exists ordered d'' p,
    place_order
      {| OrderCreate.user_id := user_id;
         OrderCreate.items :=
           [ {| OrderItemIn.product_id := ProductOut.id out;
                OrderItemIn.quantity := quantity |} ] |} s'
    = (Return ordered, Some d'') /\
    OrderOut.total ordered
    = PrimFloat.add 0%float
        (PrimFloat.mul (ProductIn.price (AdminCreateProductRequest.product req)) q) /\
    lookup_product d'' (ProductOut.id out) = Some p /\
    product_name p = Some (ProductIn.name (AdminCreateProductRequest.product req)) /\
    product_stock p
    = Some (ProductIn.stock (AdminCreateProductRequest.product req) - quantity)%Z.
Proof.
  intros Hc Hfresh Hq Hmax Hconv. rewrite create_product_run in Hc. cbv zeta in Hc.
  destruct (find_one _ (coll_user d)) as [admin|]; [|discriminate].
  destruct (verify_password _ _) as [ok| |]; [|discriminate..].
  destruct (negb ok || negb (bool_decide _) || negb (bool_decide _)); [discriminate|].
  injection Hc as <- <-. cbn [ProductOut.id].
  set (new := oid_of_N (next_oid d)) in *.
  set (prod := AdminCreateProductRequest.product req) in *.
  set (d' := bump_oid (set_product (coll_product d ++ [ProductIn.model_dump prod new]) d)).
  set (item := {| OrderItemIn.product_id := str_oid new; OrderItemIn.quantity := quantity |}).
  assert (Hid : ObjectId (str_oid new) = Return new)
    by (apply ObjectId_str_oid, oid_of_N_length).
  assert (Hfind : find_one (id_is new) (coll_product d') = Some (ProductIn.model_dump prod new))
    by (apply find_one_fresh; [exact Hfresh | reflexivity]).
  assert (Hcheck : check_stock [item] 0%float (Some d')
                   = (Return (PrimFloat.add 0%float (PrimFloat.mul (ProductIn.price prod) q)),
                      Some d')).
  { unfold item. cbn [check_stock]. unfold_monad. cbn [OrderItemIn.product_id].
    rewrite Hid. rewrite Hfind.
    cbn [ProductIn.model_dump product_stock product_price product_name default from_option id
           OrderItemIn.quantity].
    replace (ProductIn.stock prod <? quantity)%Z with false by (symmetry; apply Z.ltb_ge; lia).
    rewrite Hconv. reflexivity. }
  assert (Hred : reduce_stock [item] (Some d')
                 = (Return tt,
                    Some (set_product
                            (update_one (id_is new) (inc_stock (- quantity)) (coll_product d'))
                            d'))).
  { apply (reduce_stock_one d' item new (ProductIn.model_dump prod new) Hid Hfind);
      apply int64_bounds; cbn [OrderItemIn.quantity item]; unfold stock_of;
      cbn [ProductIn.model_dump product_stock default from_option id]; lia. }
  rewrite place_order_after_check. cbn [OrderCreate.items]. rewrite Hcheck, Hred.
  eexists _, _, _. split; [reflexivity|]. split; [reflexivity|].
  unfold lookup_product. rewrite Hid.
  cbn [coll_product bump_oid set_order set_product fold_left]. unfold decrement.
  unfold item. cbn [OrderItemIn.product_id OrderItemIn.quantity]. rewrite Hid.
  rewrite find_one_update_one_same by (intros x Hx; exact Hx).
  change (coll_product d ++ [ProductIn.model_dump prod new]) with (coll_product d').
  rewrite Hfind. split; [reflexivity|]. split; [reflexivity|].
  cbn [fmap option_fmap option_map inc_stock product_stock ProductIn.model_dump default
         from_option id]. reflexivity.
Qed.

(** ** Stock under order placement *)

Lemma find_one_update_one_is_Some {D} (q q' : D -> bool) (upd : D -> D) (c : list D) :
  (forall x, q' (upd x) = q' x) ->
  is_Some (find_one q' (update_one q upd c)) <-> is_Some (find_one q' c).
Proof.
  intros Hupd. induction c as [|x c IH]; simpl; [reflexivity|].
  destruct (q x); simpl.
  - rewrite Hupd. destruct (q' x); [split; eauto | reflexivity].
  - destruct (q' x); [reflexivity | exact IH].
Qed.

Lemma update_one_length {D} (q : D -> bool) (upd : D -> D) (c : list D) :
  length (update_one q upd c) = length c.
Proof.
  induction c as [|x c IH]; simpl; [reflexivity|].
  destruct (q x); simpl; [reflexivity | rewrite IH; reflexivity].
Qed.

Lemma total_stock_update_one (i : oid) (delta : Z) (c : list ProductDoc) :
  is_Some (find_one (id_is i) c) ->
  total_stock (update_one (id_is i) (inc_stock delta) c) = (total_stock c + delta)%Z.
Proof.
  induction c as [|x c IH]; simpl; [intros [? [=]]|].
  destruct (id_is i x); simpl.
  - intros _. unfold stock_of. simpl. lia.
  - intros H. rewrite (IH H). lia.
Qed.

Lemma found_in_decrement (c : list ProductDoc) (x item : OrderItemIn.t) :
  found_in c item -> found_in (decrement c x) item.
Proof.
  unfold found_in, decrement.
  destruct (ObjectId (OrderItemIn.product_id item)) as [i| |]; try exact id.
  destruct (ObjectId (OrderItemIn.product_id x)) as [j| |]; try exact id.
  apply find_one_update_one_is_Some. intros p. apply id_is_inc_stock.
Qed.

Lemma decrement_length (c : list ProductDoc) (x : OrderItemIn.t) :
  length (decrement c x) = length c.
Proof.
  unfold decrement. destruct (ObjectId (OrderItemIn.product_id x)); try reflexivity.
  apply update_one_length.
Qed.

Lemma total_stock_decrement (items : list OrderItemIn.t) (c : list ProductDoc) :
  Forall (found_in c) items ->
  total_stock (fold_left decrement items c) = (total_stock c - total_quantity items)%Z /\
  length (fold_left decrement items c) = length c.
Proof.
  revert c. induction items as [|x items IH]; intros c Hall; simpl; [split; [lia | reflexivity]|].
  inversion Hall as [|? ? Hx Hrest]; subst.
  destruct (IH (decrement c x)) as [Hsum Hlen].
  - eapply Forall_impl; [exact Hrest|]. intros item. apply found_in_decrement.
  - rewrite Hsum, Hlen, decrement_length. split; [|reflexivity].
    unfold found_in in Hx. unfold decrement.
    destruct (ObjectId (OrderItemIn.product_id x)) as [i| |]; try contradiction.
    rewrite (total_stock_update_one i _ c Hx). lia.
Qed.

(** A placed order takes from the whole stock exactly the quantities it
    lists, also when it lists a product more than once, and neither adds
    nor removes a product. *)
Theorem place_order_stock_conservation (d : Database) (order : OrderCreate.t)
    (out : OrderOut.t) (s' : option Database) :
  place_order order (Some d) = (Return out, s') ->
  exists d',
    s' = Some d' /\
    total_stock (coll_product d')
    = (total_stock (coll_product d) - total_quantity (OrderCreate.items order))%Z /\
    length (coll_product d') = length (coll_product d) /\
    coll_user d' = coll_user d.
Proof.
  intros Hrun. apply place_order_Return in Hrun as (total & Hc & _ & ->).
  eexists. split; [reflexivity|].
  cbn [coll_product coll_user bump_oid set_order set_product].
  destruct (total_stock_decrement (OrderCreate.items order) (coll_product d)) as [Hsum Hlen].
  - pose proof (check_stock_Return _ _ _ _ _ Hc) as Hok.
    eapply Forall_impl; [exact Hok|]. intros item Hitem.
    unfold missing_or_short, lookup_product in Hitem. unfold found_in.
    destruct (ObjectId (OrderItemIn.product_id item)); try discriminate.
    destruct (find_one _ _); [eauto | discriminate].
  - split; [exact Hsum|]. split; [exact Hlen | reflexivity].
Qed.

(** A negative quantity is accepted: when the increment and the
    resulting stock fit eight bytes, the comparison with the stock lets
    it through, the product gains what a positive quantity would take,
    and the total is the price times the negative quantity. *)
Theorem place_order_negative_quantity (d : Database) (user_id pid : string) (i : oid)
    (p : ProductDoc) (quantity : Z) (q : float) :
  ObjectId pid = Return i ->
  find_one (id_is i) (coll_product d) = Some p ->
  (- 2 ^ 63 < quantity < 0)%Z ->
  (0 <= stock_of p)%Z ->
  (stock_of p - quantity < 2 ^ 63)%Z ->
  float_of_int quantity = Return q ->
  exists out d' p',
    place_order
      {| OrderCreate.user_id := user_id;
         OrderCreate.items :=
           [ {| OrderItemIn.product_id := pid; OrderItemIn.quantity := quantity |} ] |}
      (Some d)
    = (Return out, Some d') /\
    OrderOut.total out
    = PrimFloat.add 0%float (PrimFloat.mul (default 0%float (product_price p)) q) /\
    find_one (id_is i) (coll_product d') = Some p' /\
    stock_of p' = (stock_of p - quantity)%Z /\
    (stock_of p < stock_of p')%Z.
Proof.
  intros Hid Hfind Hneg Hstock Hmax Hconv.
  assert (Hcheck : check_stock
                     [ {| OrderItemIn.product_id := pid; OrderItemIn.quantity := quantity |} ]
                     0%float (Some d)
                   = (Return (PrimFloat.add 0%float
                                (PrimFloat.mul (default 0%float (product_price p)) q)),
                      Some d)).
  { cbn [check_stock]. unfold_monad. cbn [OrderItemIn.product_id OrderItemIn.quantity].
    rewrite Hid. rewrite Hfind.
    replace (default 0 (product_stock p) <? quantity)%Z with false
      by (symmetry; apply Z.ltb_ge; unfold stock_of in Hstock; lia).
    rewrite Hconv. reflexivity. }
  assert (Hred : reduce_stock
                   [ {| OrderItemIn.product_id := pid; OrderItemIn.quantity := quantity |} ]
                   (Some d)
                 = (Return tt,
                    Some (set_product
                            (update_one (id_is i) (inc_stock (- quantity)) (coll_product d)) d))).
  { apply (reduce_stock_one d
             {| OrderItemIn.product_id := pid; OrderItemIn.quantity := quantity |}
             i p Hid Hfind);
      apply int64_bounds; cbn [OrderItemIn.quantity]; lia. }
  rewrite place_order_after_check. cbn [OrderCreate.items]. rewrite Hcheck, Hred.
  eexists _, _, (inc_stock (- quantity) p). split; [reflexivity|]. split; [reflexivity|].
  cbn [coll_product bump_oid set_order set_product fold_left]. unfold decrement.
  cbn [OrderItemIn.product_id OrderItemIn.quantity]. rewrite Hid.
  rewrite find_one_update_one_same by (intros x Hx; exact Hx). rewrite Hfind.
  split; [reflexivity|]. unfold stock_of in *. cbn [inc_stock product_stock default from_option id].
  split; lia.
Qed.

(** ** More on startup seeding *)

Lemma other_admin_demote (x : UserDoc) :
  other_admin (if other_admin x then set_role "user" x else x) = false.
Proof.
  destruct (other_admin x) eqn:E; [|exact E].
  unfold other_admin, role_is. cbn [set_role user_role].
  rewrite bool_decide_eq_false_2 by discriminate. apply andb_false_r.
Qed.

Lemma update_many_fixed {D} (q : D -> bool) (upd : D -> D) (c : list D) :
  Forall (fun x => q x = false) c -> update_many q upd c = c.
Proof.
  unfold update_many. induction 1 as [|x c Hx _ IH]; simpl; [reflexivity|].
  rewrite Hx, IH. reflexivity.
Qed.

Lemma update_one_fixed {D} (q : D -> bool) (upd : D -> D) (c : list D) (u : D) :
  find_one q c = Some u -> upd u = u -> update_one q upd c = c.
Proof.
  intros Hf Hu. induction c as [|x c IH]; simpl in *; [reflexivity|].
  destruct (q x); [injection Hf as ->; rewrite Hu; reflexivity|].
  rewrite (IH Hf). reflexivity.
Qed.

Lemma reset_fixed (h : string) (u : UserDoc) :
  user_role u = Some "admin" -> user_password_hash u = Some h ->
  set_password_hash h (set_role "admin" u) = u.
Proof. destruct u. simpl. intros -> ->. reflexivity. Qed.

Lemma update_one_Forall {D} (P : D -> Prop) (q : D -> bool) (upd : D -> D) (c : list D) :
  Forall P c -> (forall x, q x = true -> P (upd x)) -> Forall P (update_one q upd c).
Proof.
  intros Hall Hupd. induction Hall as [|x c Hx Hc IH]; simpl; [constructor|].
  destruct (q x) eqn:E; constructor; auto.
Qed.

Lemma seed_admin_settles (d : Database) (t1 t2 : Z) :
  exists d1, seed_admin t1 t2 (Some d) = (Return tt, Some d1) /\ settled d1.
Proof.
  destruct (seed_admin_seeded d t1 t2) as (d1 & Hrun & Hseeded).
  exists d1. split; [exact Hrun|]. split; [exact Hseeded|].
  revert Hrun. unfold seed_admin. unfold_monad. simpl.
  destruct (find_one (email_is ADMIN_EMAIL) (coll_user d)) as [u0|]; simpl;
    intros [= <-]; simpl.
  - apply update_one_Forall.
    + unfold update_many. apply Forall_map, Forall_forall. intros x _. apply other_admin_demote.
    + intros x Hx. unfold other_admin.
      replace (email_is ADMIN_EMAIL (set_password_hash _ _)) with true
        by (symmetry; exact Hx).
      reflexivity.
  - unfold update_many. apply Forall_map, Forall_forall. intros x _. apply other_admin_demote.
Qed.

Lemma seed_admin_settled (d : Database) (t1 t2 : Z) :
  settled d -> seed_admin t1 t2 (Some d) = (Return tt, Some d).
Proof.
  intros [(u & Hu & Hr & Hh) Hothers]. unfold seed_admin. unfold_monad. simpl.
  rewrite Hu. simpl. rewrite (update_many_fixed _ _ _ Hothers).
  rewrite (update_one_fixed _ _ _ u Hu) by (apply reset_fixed; assumption).
  destruct d; reflexivity.
Qed.

(** Startup seeding is idempotent, from any state and whatever the
    clock: a second run changes nothing. *)
Theorem seed_admin_idempotent (d : Database) (t1 t2 t3 t4 : Z) :
  exists d1,
    seed_admin t1 t2 (Some d) = (Return tt, Some d1) /\
    seed_admin t3 t4 (Some d1) = (Return tt, Some d1).
Proof.
  destruct (seed_admin_settles d t1 t2) as (d1 & Hrun & Hsettled).
  exists d1. split; [exact Hrun | apply seed_admin_settled; exact Hsettled].
Qed.

(** After startup seeding, from any state, the admin logs in with the
    configured email and password: seeding resets the password of the
    reserved record. *)
Theorem seed_admin_then_admin_login (d : Database) (t1 t2 : Z) :
  exists d1 out,
    seed_admin t1 t2 (Some d) = (Return tt, Some d1) /\
    admin_login {| LoginRequest.email := ADMIN_EMAIL; LoginRequest.password := ADMIN_PASSWORD |}
      (Some d1)
    = (Return out, Some d1) /\
    UserPublic.role out = "admin" /\ UserPublic.email out = Some ADMIN_EMAIL.
Proof.
  destruct (seed_admin_seeded d t1 t2) as (d1 & Hrun & (u & Hu & Hr & Hh)).
  exists d1. eexists. split; [exact Hrun|].
  rewrite (admin_login_reserved
             {| LoginRequest.email := ADMIN_EMAIL; LoginRequest.password := ADMIN_PASSWORD |}
             d1 u eq_refl Hu Hr Hh).
  cbn [LoginRequest.password]. rewrite String.eqb_refl.
  split; [reflexivity|]. split; [reflexivity|]. cbn [UserPublic.email].
  apply find_one_Some in Hu as [_ Hu]. apply email_is_true in Hu. exact Hu.
Qed.

Lemma kept_demote (x : UserDoc) :
  kept x (if other_admin x then set_role "user" x else x).
Proof.
  unfold other_admin, kept. destruct (email_is ADMIN_EMAIL x) eqn:Ee; simpl.
  - repeat split; try reflexivity; [discriminate | left; reflexivity].
  - destruct (role_is "admin" x) eqn:Er; simpl; repeat split; try reflexivity; discriminate.
Qed.

Lemma kept_update_one (c : list UserDoc) (upd : UserDoc -> UserDoc) :
  (forall x, email_is ADMIN_EMAIL x = true ->
             kept x (upd (if other_admin x then set_role "user" x else x))) ->
  Forall2 kept c
    (update_one (email_is ADMIN_EMAIL) upd (update_many other_admin (set_role "user") c)).
Proof.
  intros Hupd. unfold update_many. induction c as [|x c IH]; simpl; [constructor|].
  rewrite demote_keeps_email. destruct (email_is ADMIN_EMAIL x) eqn:Ee.
  - constructor; [apply Hupd; exact Ee|].
    clear IH. induction c as [|y c IH]; simpl; constructor; [apply kept_demote | exact IH].
  - constructor; [apply kept_demote | exact IH].
Qed.

(** Startup seeding deletes, reorders and renames nothing: every record
    keeps its place, id, name, email and timestamps; a record without
    the reserved email keeps its password hash and its role, except that
    the role admin becomes user; a record with the reserved email is
    left as it is or reset to admin with the hash of the admin password;
    the products and the orders are untouched; and at most one record,
    under the reserved email, is added at the end. *)
Theorem seed_admin_keeps_accounts (d : Database) (t1 t2 : Z) :
  exists d1 before added,
    seed_admin t1 t2 (Some d) = (Return tt, Some d1) /\
    coll_product d1 = coll_product d /\ coll_order d1 = coll_order d /\
    coll_user d1 = before ++ added /\
    Forall2 kept (coll_user d) before /\
    (added = [] \/ exists u, added = [u] /\ user_email u = Some ADMIN_EMAIL).
Proof.
  unfold seed_admin. unfold_monad. simpl.
  destruct (find_one (email_is ADMIN_EMAIL) (coll_user d)) as [u0|] eqn:Hf; simpl.
  - eexists _, _, []. split; [reflexivity|]. split; [reflexivity|]. split; [reflexivity|].
    rewrite app_nil_r. split; [reflexivity|]. split; [|left; reflexivity].
    apply kept_update_one. intros x Hx. rewrite (demote_reserved x Hx).
    unfold kept. cbn [set_password_hash set_role user__id user_name user_email
                        user_created_at user_updated_at].
    repeat split; try reflexivity; try congruence. right. split; reflexivity.
  - eexists _, _, _. split; [reflexivity|]. split; [reflexivity|]. split; [reflexivity|].
    simpl. unfold update_many. rewrite map_app. split; [reflexivity|]. split.
    + clear Hf. induction (coll_user d) as [|y c IH]; simpl; constructor;
        [apply kept_demote | exact IH].
    + right. eexists. split; [reflexivity|]. reflexivity.
Qed.

(** ** Sessions *)

Lemma seed_admin_cases (d : Database) (t1 t2 : Z) :
  exists d1,
    seed_admin t1 t2 (Some d) = (Return tt, Some d1) /\
    ((is_Some (find_one (email_is ADMIN_EMAIL) (coll_user d)) /\
      Forall2 kept (coll_user d) (coll_user d1)) \/
     (find_one (email_is ADMIN_EMAIL) (coll_user d) = None /\
      exists before u,
        coll_user d1 = before ++ [u] /\ Forall2 kept (coll_user d) before /\
        user_email u = Some ADMIN_EMAIL /\ registered u)).
Proof.
  unfold seed_admin. unfold_monad. simpl.
  destruct (find_one (email_is ADMIN_EMAIL) (coll_user d)) as [u0|] eqn:Hf; simpl.
  - eexists. split; [reflexivity|]. left. split; [eauto|]. simpl.
    apply kept_update_one. intros x Hx. rewrite (demote_reserved x Hx).
    unfold kept. cbn [set_password_hash set_role user__id user_name user_email
                        user_created_at user_updated_at].
    repeat split; try reflexivity; try congruence. right. split; reflexivity.
  - eexists. split; [reflexivity|]. right. split; [reflexivity|]. simpl.
    unfold update_many. rewrite map_app. eexists _, _. split; [reflexivity|]. split.
    + clear Hf. induction (coll_user d) as [|y c IH]; simpl; constructor;
        [apply kept_demote | exact IH].
    + split; [reflexivity|]. eexists. reflexivity.
Qed.

Lemma emails_kept (c c' : list UserDoc) : Forall2 kept c c' -> emails c' = emails c.
Proof.
  unfold emails. induction 1 as [|u u' c c' Hk _ IH]; [reflexivity|].
  destruct Hk as (_ & _ & He & _). cbn [omap list_omap]. rewrite He, IH. reflexivity.
Qed.

Lemma registered_kept (c c' : list UserDoc) :
  Forall2 kept c c' -> Forall registered c -> Forall registered c'.
Proof.
  induction 1 as [|u u' c c' Hk _ IH]; intros Hall; [constructor|].
  inversion Hall as [|? ? Hu Hc]; subst. constructor; [|exact (IH Hc)].
  destruct Hk as (_ & _ & _ & _ & _ & Hother & Hreserved).
  destruct (email_is ADMIN_EMAIL u) eqn:Ee.
  - destruct (Hreserved eq_refl) as [->|[_ Hh]]; [exact Hu | eexists; exact Hh].
  - destruct (Hother eq_refl) as [Hh _]. destruct Hu as [pw Hpw]. exists pw. congruence.
Qed.

Lemma other_admin_false (u : UserDoc) :
  other_admin u = false <-> (role_is "admin" u = true -> email_is ADMIN_EMAIL u = true).
Proof.
  unfold other_admin. destruct (email_is ADMIN_EMAIL u), (role_is "admin" u); simpl;
    split; auto; try discriminate. intros H. discriminate (H eq_refl).
Qed.

Lemma seed_admin_invariant (d : Database) (t1 t2 : Z) :
  users_invariant (coll_user d) ->
  exists d1, seed_admin t1 t2 (Some d) = (Return tt, Some d1) /\ users_invariant (coll_user d1).
Proof.
  intros (Hnd & Hreg & _).
  destruct (seed_admin_cases d t1 t2) as (d1 & Hrun & Hcases).
  destruct (seed_admin_settles d t1 t2) as (d1' & Hrun' & _ & Hsettled).
  rewrite Hrun in Hrun'. injection Hrun' as <-.
  exists d1. split; [exact Hrun|]. split; [|split].
  - destruct Hcases as [[_ Hk]|(Hnone & before & u & Hc & Hk & Hu & _)].
    + rewrite (emails_kept _ _ Hk). exact Hnd.
    + rewrite Hc. unfold emails. rewrite omap_app. fold (emails before).
      rewrite (emails_kept _ _ Hk). cbn [omap list_omap]. rewrite Hu.
      apply NoDup_app. split; [exact Hnd|]. split; [|apply NoDup_singleton].
      intros e He Hin. apply list_elem_of_singleton in Hin. subst e.
      apply find_one_email_emails in Hnone. contradiction.
  - destruct Hcases as [[_ Hk]|(_ & before & u & Hc & Hk & _ & Hu)].
    + exact (registered_kept _ _ Hk Hreg).
    + rewrite Hc. apply Forall_app. split; [exact (registered_kept _ _ Hk Hreg)|].
      constructor; [exact Hu | constructor].
  - eapply Forall_impl; [exact Hsettled|]. intros u. apply other_admin_false.
Qed.

Lemma user_signup_invariant (payload : SignupRequest.t) (d : Database) :
  users_invariant (coll_user d) ->
  exists d', (user_signup payload (Some d)).2 = Some d' /\ users_invariant (coll_user d').
Proof.
  intros Hinv. rewrite user_signup_run.
  destruct (bool_decide (SignupRequest.email payload = ADMIN_EMAIL)); [exists d; split; auto|].
  destruct (find_one (email_is (SignupRequest.email payload)) (coll_user d)) eqn:Hf;
    [exists d; split; auto|].
  eexists. split; [reflexivity|]. destruct Hinv as (Hnd & Hreg & Hadm).
  cbn [snd coll_user bump_oid set_user]. split; [|split].
  - unfold emails. rewrite omap_app. cbn [omap list_omap signup_doc user_email].
    apply NoDup_app. split; [exact Hnd|]. split; [|apply NoDup_singleton].
    intros e He Hin. apply list_elem_of_singleton in Hin. subst e.
    apply find_one_email_emails in Hf. contradiction.
  - apply Forall_app. split; [exact Hreg|]. constructor; [|constructor].
    eexists. reflexivity.
  - apply Forall_app. split; [exact Hadm|]. constructor; [|constructor].
    unfold role_is. cbn [signup_doc user_role].
    rewrite bool_decide_eq_false_2 by discriminate. discriminate.
Qed.

Lemma create_product_users (req : AdminCreateProductRequest.t) (d : Database) :
  exists d', (create_product req (Some d)).2 = Some d' /\ coll_user d' = coll_user d.
Proof.
  rewrite create_product_run. cbv zeta.
  destruct (find_one _ (coll_user d)) as [admin|]; [|exists d; split; reflexivity].
  destruct (verify_password _ _) as [ok| |]; [|exists d; split; reflexivity..].
  destruct (negb ok || negb (bool_decide _) || negb (bool_decide _));
    [exists d; split; reflexivity|].
  eexists. split; reflexivity.
Qed.

Lemma place_order_users (order : OrderCreate.t) (d : Database) :
  exists d', (place_order order (Some d)).2 = Some d' /\ coll_user d' = coll_user d.
Proof.
  rewrite place_order_after_check.
  destruct (reduce_stock_products (OrderCreate.items order) d) as (r & c' & Hr).
  destruct (check_stock (OrderCreate.items order) 0%float (Some d)) as [[total|c msg|e] s0];
    [| eexists; split; reflexivity..].
  rewrite Hr. destruct r; eexists; split; reflexivity.
Qed.

Lemma run_invariant (c : call) (d : Database) :
  users_invariant (coll_user d) ->
  exists d', run c (Some d) = Some d' /\ users_invariant (coll_user d').
Proof.
  intros Hinv. destruct c as [t1 t2|payload|payload|payload|req| |order]; cbn [run].
  - destruct (seed_admin_invariant d t1 t2 Hinv) as (d1 & -> & H1). exists d1. split; auto.
  - apply user_signup_invariant. exact Hinv.
  - exists d. split; [apply user_login_state | exact Hinv].
  - exists d. split; [apply admin_login_state | exact Hinv].
  - destruct (create_product_users req d) as (d' & -> & Hu). exists d'. rewrite Hu. auto.
  - exists d. split; [reflexivity | exact Hinv].
  - destruct (place_order_users order d) as (d' & -> & Hu). exists d'. rewrite Hu. auto.
Qed.

Lemma session_invariant (calls : list call) (d : Database) :
  users_invariant (coll_user d) ->
  exists d', session calls (Some d) = Some d' /\ users_invariant (coll_user d').
Proof.
  revert d. induction calls as [|c calls IH]; intros d Hinv; [exists d; split; auto|].
  destruct (run_invariant c d Hinv) as (d1 & Hrun & H1).
  unfold session. cbn [fold_left]. rewrite Hrun. exact (IH d1 H1).
Qed.

Lemma users_invariant_empty : users_invariant (coll_user empty_db).
Proof. repeat split; constructor. Qed.

Lemma filter_email_NoDup (e : string) (c : list UserDoc) :
  NoDup (emails c) -> (length (List.filter (email_is e) c) <= 1)%nat.
Proof.
  unfold emails. induction c as [|x c IH]; intros Hnd; simpl; [lia|].
  cbn [omap list_omap] in Hnd.
  destruct (email_is e x) eqn:Ee.
  - apply email_is_true in Ee. rewrite Ee in Hnd. apply NoDup_cons in Hnd as [Hnotin _].
    apply find_one_email_emails, find_one_None in Hnotin.
    rewrite (filter_none _ _ Hnotin). simpl. lia.
  - apply IH. destruct (user_email x); [apply NoDup_cons in Hnd as [_ Hnd]|]; exact Hnd.
Qed.

Lemma filter_admin_reserved (c : list UserDoc) :
  Forall (fun u => role_is "admin" u = true -> email_is ADMIN_EMAIL u = true) c ->
  (length (List.filter (role_is "admin") c)
   <= length (List.filter (email_is ADMIN_EMAIL) c))%nat.
Proof.
  induction 1 as [|x c Hx _ IH]; simpl; [lia|].
  destruct (role_is "admin" x); [rewrite (Hx eq_refl); simpl; lia|].
  destruct (email_is ADMIN_EMAIL x); simpl; lia.
Qed.

(** Whatever calls a server receives, in whatever order, starting from
    the empty database: the database stays available, no two accounts
    share an email, at most one account is an admin, and an admin
    carries the reserved email. *)
Theorem session_single_admin (calls : list call) :
  exists d,
    session calls (Some empty_db) = Some d /\
    NoDup (emails (coll_user d)) /\
    (length (List.filter (role_is "admin") (coll_user d)) <= 1)%nat /\
    Forall (fun u => user_role u = Some "admin" -> user_email u = Some ADMIN_EMAIL)
           (coll_user d).
Proof.
  destruct (session_invariant calls empty_db users_invariant_empty)
    as (d & Hrun & Hnd & _ & Hadm).
  exists d. split; [exact Hrun|]. split; [exact Hnd|]. split.
  - pose proof (filter_admin_reserved _ Hadm). pose proof (filter_email_NoDup ADMIN_EMAIL _ Hnd).
    lia.
  - eapply Forall_impl; [exact Hadm|]. intros u Hu Hr.
    apply email_is_true, Hu, role_is_true, Hr.
Qed.

(** In the state any session leaves, startup seeding, once and twice,
    leaves exactly one admin: the reserved record with the hash of the
    admin password. *)
Theorem session_then_seeding (calls : list call) :
  exists d, session calls (Some empty_db) = Some d /\ seeding_outcome d.
Proof.
  destruct (session_invariant calls empty_db users_invariant_empty)
    as (d & Hrun & Hnd & _ & _).
  exists d. split; [exact Hrun|]. intros t1 t2 t3 t4.
  pose proof (filter_email_NoDup ADMIN_EMAIL _ Hnd) as Hone.
  destruct (seed_admin_once d t1 t2 Hone) as (d1 & u1 & Hrun1 & Hs1).
  destruct (single_admin_only _ _ Hs1) as [Ho1 Hone1].
  destruct (seed_admin_once d1 t3 t4 Hone1) as (d2 & u2 & Hrun2 & Hs2).
  destruct (single_admin_only _ _ Hs2) as [Ho2 _].
  exists d1, d2. repeat split; assumption.
Qed.

End Fruito.

(** * The properties on the sample data *)

Example sha256_abc :
  hex (SHA256.digest (list_byte_of_string "abc"))
  = "ba7816bf8f01cfea414140de5dae2223b00361a396177a9cb410ff61f20015ad".
Proof. vm_compute. reflexivity. Qed.

Example sha256_empty :
  hex (SHA256.digest [])
  = "e3b0c44298fc1c149afbf4c8996fb92427ae41e4649b934ca495991b7852b855".
Proof. vm_compute. reflexivity. Qed.

Example hmac_sha256_fox :
  hexdigest (list_byte_of_string "key")
            (list_byte_of_string "The quick brown fox jumps over the lazy dog")
  = "f7bc83f430538424b13298e6aa6fb143ef4d59a14946175997479dbc2d1a3cd8".
Proof. vm_compute. reflexivity. Qed.

Example hash_admin_password :
  hash_password None ADMIN_PASSWORD
  = "8e7492866ebf489dc458320fa7d7b7ffb149d727333af1c3ee0a0e9ce1a21735".
Proof. vm_compute. reflexivity. Qed.

Example ObjectId_case :
  ObjectId "0000000000000000000000AB" = ObjectId pear_id
  /\ ObjectId pear_id = Return (oid_of_N 0xab)
  /\ str_oid (oid_of_N 0xab) = pear_id
  /\ ObjectId "pear" = Uncaught (InvalidId "pear").
Proof. repeat split; vm_compute; reflexivity. Qed.

(** A string of length 24 that holds whitespace between its bytes is
    read as a shorter object id, which no product carries. *)
Example ObjectId_whitespace :
  is_Return (ObjectId "00 00 00 00 00 00 00 00 ") = true
  /\ ObjectId "0 00 00 00 00 00 00 00 0"
     = Uncaught (InvalidId "0 00 00 00 00 00 00 00 0")
  /\ place_order (order_of [("00 00 00 00 00 00 00 00 ", 1%Z)]) (Some (shop 5))
     = (HTTPException 404 "Product not found", Some (shop 5)).
Proof. repeat split; vm_compute; reflexivity. Qed.

(** An increment outside eight bytes is refused by the driver after the
    items before it were decremented. *)
Example place_order_increment_refused :
  place_order (order_of [(pear_id, 1%Z); (fig_id, (- 2 ^ 70)%Z)]) (Some market)
  = (Uncaught (OverflowError "MongoDB can only handle up to 8-byte ints"),
     Some (set_product [pear 9; fig 4] market)).
Proof. vm_compute. reflexivity. Qed.

(** Two spellings of one object id denote one product: listed under
    both, the pear is decremented twice. *)
Example place_order_two_spellings :
  exists out d',
    place_order (order_of [(pear_id, 3%Z); ("0000000000000000000000AB", 3%Z)]) (Some (shop 5))
    = (Return out, Some d') /\
    coll_product d' = [pear (-1)].
Proof. eexists _, _. split; vm_compute; reflexivity. Qed.

(** A quantity beyond the range of [float] passes the comparison with
    the stock when it is negative, and the product with the price
    raises. *)
Example place_order_overflow :
  place_order (order_of [(pear_id, (- 2 ^ 1024)%Z)]) (Some (shop 5))
  = (Uncaught (OverflowError "int too large to convert to float"), Some (shop 5)).
Proof. vm_compute. reflexivity. Qed.



Lemma place_order_three_of_ten_witness :
  exists out d',
    place_order (order_of [(pear_id, 3%Z)]) (Some (shop 10)) = (Return out, Some d') /\
    OrderOut.total out = 7.5%float /\ OrderOut.status out = "placed" /\
    coll_product d' = [pear 7].
Proof.
  destruct (place_order_three_of_ten (shop 10) "u1" pear_id (oid_of_N 0xab) (pear 10))
    as (d' & p' & Hrun & Hprod & _ & _ & _).
  - vm_compute. reflexivity.
  - vm_compute. reflexivity.
  - reflexivity.
  - reflexivity.
  - eexists _, d'. split; [exact Hrun|]. split; [reflexivity|]. split; [reflexivity|].
    rewrite Hprod. vm_compute. reflexivity.
Defined.

(** C3 fails as stated: with two records carrying the reserved email,
    both admins, seeding resets only the first and both remain admins. *)
Lemma seed_admin_single_admin_counterexample :
  ~ seeding_outcome None reserved_twice.
Proof.
  intros H. destruct (H 0%Z 0%Z 0%Z 0%Z) as (d1 & d2 & H1 & (u & Hfilter & _) & _).
  vm_compute in H1. injection H1 as <-. vm_compute in Hfilter. discriminate.
Qed.

Lemma seed_admin_single_admin_witness :
  at_most_one_reserved (coll_user tampered) /\ seeding_outcome None tampered.
Proof.
  assert (H : at_most_one_reserved (coll_user tampered)) by (vm_compute; lia).
  split; [exact H|]. exact (seed_admin_single_admin None tampered H).
Defined.

(** C4 fails on the code.  With the admin's credentials, [create_product]
    stores the product it is given as it is: here with the price -1.0 and
    the stock -5, although the Product schema of [schemas.py] declares
    both as not negative. *)
Theorem create_product_negative :
  exists out d' p,
    create_product None
      {| AdminCreateProductRequest.product := owed_pear;
         AdminCreateProductRequest.credentials := admin_credentials |}
      (Some (fresh_db None))
    = (Return out, Some d') /\
    coll_product d' = [p] /\
    product_price p = Some (-1)%float /\ PrimFloat.ltb (-1)%float 0%float = true /\
    product_stock p = Some (-5)%Z.
Proof.
  eexists _, _, _. split; [vm_compute; reflexivity|]. split; [reflexivity|].
  repeat split.
Qed.

Lemma admin_login_reserved_only_witness :
  seeded None (fresh_db None) /\
  is_Return (admin_login None admin_credentials (Some (fresh_db None))).1 = true.
Proof.
  assert (H : seeded None (fresh_db None)).
  { eexists. split; [vm_compute; reflexivity|]. split; vm_compute; reflexivity. }
  split; [exact H|].
  apply (proj1 (admin_login_reserved_only None (fresh_db None) admin_credentials H)).
  split; [reflexivity | vm_compute; reflexivity].
Defined.

Lemma user_signup_then_login_witness :
  exists out s',
    user_signup None alice (Some (fresh_db None)) = (Return out, s') /\
    user_login None
      {| LoginRequest.email := "alice@example.com"; LoginRequest.password := "correct horse" |} s'
    = (Return out, s') /\
    UserPublic.role out = "user".
Proof.
  eassert (E : user_signup None alice (Some (fresh_db None)) = (Return _, _))
    by (vm_compute; reflexivity).
  eexists _, _. split; [exact E|].
  destruct (user_signup_then_login None alice _ _ _ E) as (Hlogin & Hrole & _).
  split; [exact Hlogin | exact Hrole].
Defined.

Lemma place_order_stored_items_witness :
  exists out d' o,
    place_order (order_of [(pear_id, 3%Z); (fig_id, 4%Z)]) (Some market)
    = (Return out, Some d') /\
    coll_order d' = [o] /\
    Forall2 (fun (stored : gmap string value) item =>
               dom stored = ({[ "product_id"; "quantity" ]} : gset string) /\
               stored !! "product_id" = Some (VStr (OrderItemIn.product_id item)) /\
               stored !! "quantity" = Some (VInt (OrderItemIn.quantity item)) /\
               stored !! "name" = None /\
               stored !! "price" = None)
            (order_items o)
            (OrderCreate.items (order_of [(pear_id, 3%Z); (fig_id, 4%Z)])).
Proof.
  eassert (E : place_order (order_of [(pear_id, 3%Z); (fig_id, 4%Z)]) (Some market)
               = (Return _, Some _)) by (vm_compute; reflexivity).
  destruct (place_order_stored_items market _ _ _ E) as (d' & o & [= <-] & Ho & _ & Hitems).
  eexists _, _, o. split; [exact E|]. split; [exact Ho | exact Hitems].
Defined.

Lemma hash_password_deterministic_witness :
  exists d1 d2 u1 u2,
    coll_user d1 = coll_user (fresh_db None) ++ [u1] /\
    coll_user d2 = coll_user d1 ++ [u2] /\
    user_name u1 = Some "Alice" /\ user_name u2 = Some "Bob" /\
    user_password_hash u2 = user_password_hash u1.
Proof.
  eassert (E1 : user_signup None alice (Some (fresh_db None)) = (Return _, Some _))
    by (vm_compute; reflexivity).
  eassert (E2 : user_signup None bob (Some (state_after (user_signup None alice) (fresh_db None)))
                = (Return _, Some _))
    by (vm_compute; reflexivity).
  destruct (proj2 (hash_password_deterministic None) alice bob _ _ _ _ _ _ eq_refl E1 E2)
    as (d1 & d2 & u1 & u2 & [= <-] & [= <-] & H1 & H2 & _ & Hsame).
  eexists _, _, u1, u2. split; [exact H1|]. split; [exact H2|].
  split; [|split; [|exact Hsame]].
  - vm_compute in H1. injection H1 as <-. reflexivity.
  - vm_compute in H2. injection H2 as <-. reflexivity.
Defined.

Lemma place_order_distinct_products_witness :
  exists out d',
    place_order (order_of [(pear_id, 3%Z); (fig_id, 4%Z)]) (Some market)
    = (Return out, Some d') /\
    Forall (fun item =>
              exists i p p',
                ObjectId (OrderItemIn.product_id item) = Return i /\
                find_one (id_is i) (coll_product market) = Some p /\
                find_one (id_is i) (coll_product d') = Some p' /\
                product_stock p' = Some (stock_of p - OrderItemIn.quantity item)%Z /\
                (0 <= stock_of p - OrderItemIn.quantity item)%Z)
           (OrderCreate.items (order_of [(pear_id, 3%Z); (fig_id, 4%Z)])).
Proof.
  eassert (E : place_order (order_of [(pear_id, 3%Z); (fig_id, 4%Z)]) (Some market)
               = (Return _, Some _)) by (vm_compute; reflexivity).
  assert (Hnd : NoDup (map (fun x => ObjectId (OrderItemIn.product_id x))
                         (OrderCreate.items (order_of [(pear_id, 3%Z); (fig_id, 4%Z)])))).
  { apply NoDup_cons. split; [|apply NoDup_singleton].
    intros Hin. apply list_elem_of_singleton in Hin. vm_compute in Hin. discriminate. }
  destruct (proj1 place_order_distinct_products market _ _ _ Hnd E) as (d' & [= <-] & Hall).
  eexists _, _. split; [exact E | exact Hall].
Defined.

(** C9 fails as stated, twice.  Two spellings of the pear's id are
    distinct product ids of one product: the request passes the check
    and the 5 pears end at -1, not at 2.  And a request for one pear and
    for minus 2^70 figs passes the check, but the driver refuses the
    increment of the figs: the handler raises after the pear was
    decremented, and the figs are left at 4. *)
Lemma place_order_distinct_products_counterexample :
  ~ stock_after_check (shop 5) (order_of [(pear_id, 3%Z); ("0000000000000000000000AB", 3%Z)])
  /\ place_order (order_of [(pear_id, 1%Z); (fig_id, (- 2 ^ 70)%Z)]) (Some market)
     = (Uncaught (OverflowError "MongoDB can only handle up to 8-byte ints"),
        Some (set_product [pear 9; fig 4] market))
  /\ ~ stock_after_check market (order_of [(pear_id, 1%Z); (fig_id, (- 2 ^ 70)%Z)]).
Proof.
  split; [|split; [vm_compute; reflexivity|]].
  - intros H. destruct H as (d' & Hstate & Hall).
    + apply NoDup_cons. split; [|apply NoDup_singleton].
      intros Hin. apply list_elem_of_singleton in Hin. discriminate.
    + vm_compute. reflexivity.
    + vm_compute in Hstate. injection Hstate as <-.
      inversion Hall as [|? ? (p & p' & Hp & Hp' & Hstock & _) _]; subst.
      vm_compute in Hp. injection Hp as <-.
      vm_compute in Hp'. injection Hp' as <-.
      vm_compute in Hstock. discriminate.
  - intros H. destruct H as (d' & Hstate & Hall).
    + apply NoDup_cons. split; [|apply NoDup_singleton].
      intros Hin. apply list_elem_of_singleton in Hin. discriminate.
    + vm_compute. reflexivity.
    + vm_compute in Hstate. injection Hstate as <-.
      inversion Hall as [|? ? _ Hrest]; subst.
      inversion Hrest as [|? ? (p & p' & Hp & Hp' & Hstock & _) _]; subst.
      vm_compute in Hp. injection Hp as <-.
      vm_compute in Hp'. injection Hp' as <-.
      vm_compute in Hstock. discriminate.
Qed.

(** * The further properties on the sample data *)

Lemma user_signup_twice_witness :
  exists out s',
    user_signup None alice (Some (fresh_db None)) = (Return out, s') /\
    user_signup None
      {| SignupRequest.name := "Eve"; SignupRequest.email := "alice@example.com";
         SignupRequest.password := "guess" |} s'
    = (HTTPException 400 "Email already registered", s').
Proof.
  eassert (E : user_signup None alice (Some (fresh_db None)) = (Return _, _))
    by (vm_compute; reflexivity).
  eexists _, _. split; [exact E|].
  exact (user_signup_twice None alice
           {| SignupRequest.name := "Eve"; SignupRequest.email := "alice@example.com";
              SignupRequest.password := "guess" |} _ _ _ E eq_refl).
Defined.

Lemma user_signup_then_admin_login_witness :
  exists out s',
    user_signup None alice (Some (fresh_db None)) = (Return out, s') /\
    admin_login None
      {| LoginRequest.email := "alice@example.com"; LoginRequest.password := "correct horse" |} s'
    = (HTTPException 403 "Admin access denied", s').
Proof.
  eassert (E : user_signup None alice (Some (fresh_db None)) = (Return _, _))
    by (vm_compute; reflexivity).
  eexists _, _. split; [exact E|].
  exact (user_signup_then_admin_login None alice _ _ _ E).
Defined.

Lemma create_product_then_list_witness :
  exists out s' rows,
    create_product None sell_figs (Some (fresh_db None)) = (Return out, s') /\
    list_products s' = (Return rows, s') /\
    length rows = 1%nat.
Proof.
  eassert (E : create_product None sell_figs (Some (fresh_db None)) = (Return _, _))
    by (vm_compute; reflexivity).
  destruct (create_product_then_list None sell_figs _ _ _ E) as (rows & Hbefore & Hafter).
  eexists _, _, _. split; [exact E|]. split; [exact Hafter|].
  vm_compute in Hbefore. injection Hbefore as <-. reflexivity.
Defined.

Lemma create_product_then_order_witness :
  exists out s' ordered d'' p,
    create_product None sell_figs (Some (fresh_db None)) = (Return out, s') /\
    place_order
      {| OrderCreate.user_id := "u1";
         OrderCreate.items :=
           [ {| OrderItemIn.product_id := ProductOut.id out; OrderItemIn.quantity := 4%Z |} ] |}
      s'
    = (Return ordered, Some d'') /\
    lookup_product d'' (ProductOut.id out) = Some p /\
    product_stock p = Some 0%Z.
Proof.
  eassert (E : create_product None sell_figs (Some (fresh_db None)) = (Return _, _))
    by (vm_compute; reflexivity).
  destruct (create_product_then_order None sell_figs _ _ _ "u1" 4%Z 4%float E)
    as (ordered & d'' & p & Hrun & _ & Hlook & _ & Hstock).
  - constructor.
  - vm_compute. split; discriminate.
  - vm_compute. reflexivity.
  - reflexivity.
  - eexists _, _, ordered, d'', p. split; [exact E|]. split; [exact Hrun|].
    split; [exact Hlook | exact Hstock].
Defined.

Lemma place_order_stock_conservation_witness :
  exists out d',
    place_order (order_of [(pear_id, 3%Z); (fig_id, 4%Z); (pear_id, 2%Z)]) (Some market)
    = (Return out, Some d') /\
    total_stock (coll_product d') = 5%Z.
Proof.
  eassert (E : place_order (order_of [(pear_id, 3%Z); (fig_id, 4%Z); (pear_id, 2%Z)])
                 (Some market) = (Return _, Some _)) by (vm_compute; reflexivity).
  destruct (place_order_stock_conservation market _ _ _ E) as (d' & [= <-] & Hsum & _).
  eexists _, _. split; [exact E|]. rewrite Hsum. reflexivity.
Defined.

Lemma place_order_negative_quantity_witness :
  exists out d',
    place_order (order_of [(pear_id, (-2)%Z)]) (Some (shop 5)) = (Return out, Some d') /\
    OrderOut.total out = (-5)%float /\
    coll_product d' = [pear 7].
Proof.
  destruct (place_order_negative_quantity (shop 5) "u1" pear_id (oid_of_N 0xab) (pear 5)
              (-2)%Z (-2)%float)
    as (out & d' & p' & Hrun & Htotal & _).
  - vm_compute. reflexivity.
  - vm_compute. reflexivity.
  - vm_compute. split; reflexivity.
  - vm_compute. discriminate.
  - vm_compute. reflexivity.
  - reflexivity.
  - exists out, d'. split; [exact Hrun|]. split.
    + rewrite Htotal. reflexivity.
    + assert (E : place_order (order_of [(pear_id, (-2)%Z)]) (Some (shop 5))
                  = (Return out, Some d')) by exact Hrun.
      vm_compute in E. injection E as _ <-. reflexivity.
Defined.
